(** * The data core of the COVID-19 tracker (covid-19.py)

    A shallow embedding of [clean_data], [get_country_data],
    [get_available_countries] and [display_country_stats], and the properties
    of the cleaning, query and summary steps.

    - A numeric cell is a numpy float64, modelled by the kernel's binary64
      floats; an absent value is NaN, as in pandas.
    - A DataFrame is an object: the interpreter state holds the frames that
      exist, and a pandas operation that returns a new DataFrame allocates
      one.  Text written by [print] is collected in the state as well.
    - A Python exception is an outcome of a computation. *)

From Stdlib Require Import ZArith String Ascii List Lia Bool.
From Stdlib Require Import PrimFloat SpecFloat.
From Stdlib Require FloatOps.
From Stdlib Require Import FloatAxioms.
From stdpp Require Import base list sorting strings pretty.

Local Open Scope Z_scope.

(** ** Python exceptions the modelled code can raise *)

Inductive exn : Set :=
| ValueError      (* int(nan) *)
| OverflowError   (* int(inf) *)
| IndexError      (* positional indexer out of bounds *)
| BadRef.         (* a name bound to no live object; never arises from a live frame *)

(** ** numpy float64 *)

Module Float64.

(** [pd.isna] on a float64 cell. *)
Definition isna (x : float) : bool := PrimFloat.is_nan x.

(** [x > 0]; false when [x] is NaN. *)
Definition gt0 (x : float) : bool := PrimFloat.ltb 0%float x.


(** The exact value of a finite float is [(-1)^s * m * 2^e]. *)
Definition decode (x : float) : spec_float := FloatOps.Prim2SF x.

Definition finite (x : float) : bool :=
  match decode x with
  | S754_zero _ | S754_finite _ _ _ => true
  | S754_infinity _ | S754_nan => false
  end.

(** Truncation toward zero of [m * 2^e]. *)
Definition trunc_mag (m : positive) (e : Z) : Z :=
  if 0 <=? e then Z.pos m * 2 ^ e else Z.pos m / 2 ^ (- e).

Definition signed (s : bool) (a : Z) : Z := if s then - a else a.

(** Python's [int(x)] on a float. *)
Definition py_int (x : float) : Z + exn :=
  match decode x with
  | S754_nan => inr ValueError
  | S754_infinity _ => inr OverflowError
  | S754_zero _ => inl 0
  | S754_finite s m e => inl (signed s (trunc_mag m e))
  end.

(** [n / d] rounded to the nearest integer, ties to the even one
    ([d] positive, [n] non-negative). *)
Definition round_half_even (n d : Z) : Z :=
  let q := n / d in
  let r := n mod d in
  if 2 * r <? d then q
  else if d <? 2 * r then q + 1
  else if Z.even q then q else q + 1.

(** The number of hundredths nearest to [m * 2^e]. *)
Definition hundredths (m : positive) (e : Z) : Z :=
  if 0 <=? e then 100 * Z.pos m * 2 ^ e
  else round_half_even (100 * Z.pos m) (2 ^ (- e)).

(** What [f"{x:.2f}"] shows: a sign and a count of hundredths, or
    [inf], [-inf], [nan]. *)
Inductive fixed2 : Set :=
| Fixed (neg : bool) (h : Z)
| FInf (neg : bool)
| FNan.

Definition format_2f (x : float) : fixed2 :=
  match decode x with
  | S754_nan => FNan
  | S754_infinity s => FInf s
  | S754_zero s => Fixed s 0
  | S754_finite s m e => Fixed s (hundredths m e)
  end.

(** The characters of a [fixed2]. *)
Definition show_2f (r : fixed2) : string :=
  match r with
  | Fixed s h =>
      (if s then "-" else "") +:+ pretty (h / 100)%Z +:+ "."
      +:+ (if (h mod 100 <? 10)%Z then "0" else "") +:+ pretty (h mod 100)%Z
  | FInf s => if s then "-inf" else "inf"
  | FNan => "nan"
  end.

End Float64.

Import Float64.

(** ** Rows and frames *)

(** A [Timestamp] is a count of nanoseconds since the epoch. *)
Definition Timestamp := Z.

Definition day_ns : Z := 86400000000000.

(** One row of the dataset, restricted to the columns the program reads.
    The [location] and [date] columns hold no absent value; a float64 cell
    is absent when it is NaN. *)
Record Row : Set := mkRow {
  location : string;
  date : Timestamp;
  total_cases : float;
  total_deaths : float;
  new_cases : float;
  new_deaths : float;
  total_vaccinations : float
}.

(** The rows of a DataFrame in positional order. *)
Definition DataFrame := list Row.

(** The float64 columns of a row. *)
Definition numeric_columns : list (Row → float) :=
  [total_cases; total_deaths; new_cases; new_deaths; total_vaccinations].

(** ** What the program prints *)

Inductive line : Set :=
| NoData (country : string)            (* "No data found for {country}" *)
| Header (country : string)            (* "=== COVID-19 Statistics for {country} ===" *)
| LastUpdated (d : Timestamp)          (* "Last updated: {date}" *)
| TotalCases (n : Z)                   (* "Total Cases: {n:,}" *)
| TotalDeaths (n : Z)                  (* "Total Deaths: {n:,}" *)
| TotalVaccinations (n : Z)            (* "Total Vaccinations: {n:,}" *)
| CaseFatalityRate (r : fixed2).       (* "Case Fatality Rate: {r:.2f}%" *)

(** ** Interpreter state and the computation monad *)

Definition ref := nat.

Record world : Type := World {
  frames : list DataFrame;   (* the DataFrame objects, by identity *)
  stdout : list line         (* what has been printed so far *)
}.

Inductive outcome (A : Type) : Type :=
| Ret (a : A)
| Raise (e : exn).
Arguments Ret {A} a.
Arguments Raise {A} e.

Definition M (A : Type) : Type := world → outcome A * world.

#[global] Instance M_ret : MRet M := λ A a w, (Ret a, w).

#[global] Instance M_bind : MBind M := λ A B k m w,
  match m w with
  | (Ret a, w') => k a w'
  | (Raise e, w') => (Raise e, w')
  end.

Definition raise {A} (e : exn) : M A := λ w, (Raise e, w).

Definition lift {A} (x : A + exn) : M A :=
  match x with
  | inl a => mret a
  | inr e => raise e
  end.

(** A new object; its identity is the next free one. *)
Definition alloc (d : DataFrame) : M ref := λ w,
  (Ret (length (frames w)), World (frames w ++ [d]) (stdout w)).

Definition read (r : ref) : M DataFrame := λ w,
  match frames w !! r with
  | Some d => (Ret d, w)
  | None => (Raise BadRef, w)
  end.

Definition print (l : line) : M unit := λ w,
  (Ret tt, World (frames w) (stdout w ++ [l])).

(** ** The pandas operations the program calls *)

Module pd.

(** Are all cells of [subset] absent in row [r]? *)
Definition all_na (subset : list (Row → float)) (r : Row) : bool :=
  forallb (λ col, isna (col r)) subset.

(** [df.dropna(subset=subset, how='all')]: a new frame without the rows
    whose [subset] cells are all absent. *)
Definition dropna_all (df : ref) (subset : list (Row → float)) : M ref :=
  d ← read df;
  alloc (List.filter (λ r, negb (all_na subset r)) d).

Definition fill (v x : float) : float := if isna x then v else x.

Definition fill_row (v : float) (r : Row) : Row :=
  {| location := location r;
     date := date r;
     total_cases := fill v (total_cases r);
     total_deaths := fill v (total_deaths r);
     new_cases := fill v (new_cases r);
     new_deaths := fill v (new_deaths r);
     total_vaccinations := fill v (total_vaccinations r) |}.

(** [df.fillna(v)]: a new frame in which every absent cell holds [v]. *)
Definition fillna (df : ref) (v : float) : M ref :=
  d ← read df;
  alloc (map (fill_row v) d).

(** [df['location'] == s]: one boolean per row. *)
Definition location_eq (df : ref) (s : string) : M (list bool) :=
  d ← read df;
  mret (map (λ r, String.eqb (location r) s) d).

(** Rows of [d] at the positions where [mask] is true. *)
Fixpoint select (d : DataFrame) (mask : list bool) : DataFrame :=
  match d, mask with
  | r :: d', b :: mask' => if b then r :: select d' mask' else select d' mask'
  | _, _ => []
  end.

(** [df[mask]]: a new frame. *)
Definition getitem_mask (df : ref) (mask : list bool) : M ref :=
  d ← read df;
  alloc (select d mask).

(** [df.copy()]. *)
Definition copy (df : ref) : M ref :=
  d ← read df;
  alloc d.

(** [len(df)]. *)
Definition len (df : ref) : M nat :=
  d ← read df;
  mret (length d).

(** [df.iloc[i]]; a negative [i] counts from the end. *)
Definition iloc (df : ref) (i : Z) : M Row :=
  d ← read df;
  let n := Z.of_nat (length d) in
  let p := if i <? 0 then n + i else i in
  if (0 <=? p) && (p <? n) then
    match d !! Z.to_nat p with
    | Some r => mret r
    | None => raise IndexError
    end
  else raise IndexError.

(** [df['location'].unique()]: the distinct values in order of first
    appearance. *)
Fixpoint unique_from (seen : list string) (l : list string) : list string :=
  match l with
  | [] => []
  | x :: l' =>
      if bool_decide (x ∈ seen) then unique_from seen l'
      else x :: unique_from (x :: seen) l'
  end.

Definition unique_location (df : ref) : M (list string) :=
  d ← read df;
  mret (unique_from [] (map location d)).

End pd.

(** ** Python built-ins *)

(** [s1 <= s2] on [str]: lexicographic on the code units. *)
Definition str_le (s1 s2 : string) : Prop := String.leb s1 s2 = true.

Definition str_lt (s1 s2 : string) : Prop := String.ltb s1 s2 = true.

#[global] Instance str_le_dec : RelDecision str_le.
Proof. intros s1 s2. unfold str_le. apply _. Defined.

(** [sorted(l)] on a list of [str]. *)
Definition sorted (l : list string) : list string := merge_sort str_le l.

(** ** The program *)

(** covid-19.py, lines 25-27. *)
Definition get_available_countries (df : ref) : M (list string) :=
  u ← pd.unique_location df;
  mret (sorted u).

Definition crucial_columns : list (Row → float) := [total_cases; total_deaths].

(** covid-19.py, lines 29-38. *)
Definition clean_data (df : ref) : M ref :=
  df_cleaned ← pd.dropna_all df crucial_columns;
  df_cleaned ← pd.fillna df_cleaned 0%float;
  mret df_cleaned.

(** covid-19.py, lines 40-42. *)
Definition get_country_data (df : ref) (country : string) : M ref :=
  mask ← pd.location_eq df country;
  sel ← pd.getitem_mask df mask;
  pd.copy sel.

(** covid-19.py, lines 92-102: the statistics printed for the row
    [latest_data]. *)
Definition print_stats (country : string) (latest_data : Row) : M unit :=
  print (Header country);;
  print (LastUpdated (date latest_data));;
  n ← lift (py_int (total_cases latest_data));
  print (TotalCases n);;
  n ← lift (py_int (total_deaths latest_data));
  print (TotalDeaths n);;
  (if gt0 (total_vaccinations latest_data) then
     n ← lift (py_int (total_vaccinations latest_data));
     print (TotalVaccinations n)
   else mret tt);;
  if gt0 (total_cases latest_data) then
    let death_rate :=
      (total_deaths latest_data / total_cases latest_data * 100)%float in
    print (CaseFatalityRate (format_2f death_rate))
  else mret tt.

(** covid-19.py, lines 82-102. *)
Definition display_country_stats (df : ref) (country : string) : M unit :=
  country_data ← get_country_data df country;
  n ← pd.len country_data;
  if (n =? 0)%nat then
    print (NoData country)
  else
    latest_data ← pd.iloc country_data (-1);
    print_stats country latest_data.

(** ** The terminal session *)

(** What reaches the terminal: the lines of the report, other printed
    text, and the prompts of [input]. *)
Inductive text : Set :=
| Stat (l : line)
| Text (s : string)
| Prompt (s : string).

(** The matplotlib calls of [plot_covid_trends], in the order made. *)
Inductive axes : Set := Ax1 | Ax2.

Inductive call : Set :=
| Subplots (nrows ncols : nat) (width height : nat)
| Plot (ax : axes) (xs : list Timestamp) (ys : list float) (label color : string)
| Bar (ax : axes) (xs : list Timestamp) (ys : list float)
      (label : string) (alpha : float) (color : string)
| SetTitle (ax : axes) (s : string)
| SetXLabel (ax : axes) (s : string)
| SetYLabel (ax : axes) (s : string)
| Legend (ax : axes)
| Grid (ax : axes) (on : bool)
| TickParams (ax : axes) (axis : string) (rotation : nat)
| TightLayout
| Show.

Record terminal : Type := Terminal {
  objects : list DataFrame;   (* the DataFrame objects, by identity *)
  screen : list text;         (* what has been written so far *)
  canvas : list call          (* the plotting calls made so far *)
}.

(** A session can also end on [input] at the end of the input. *)
Inductive failure : Set :=
| Py (e : exn)
| EOFError.

Inductive result (A : Type) : Type :=
| Done (a : A)
| Failed (f : failure).
Arguments Done {A} a.
Arguments Failed {A} f.

Definition IO (A : Type) : Type := terminal → result A * terminal.

#[global] Instance IO_ret : MRet IO := λ A a t, (Done a, t).

#[global] Instance IO_bind : MBind IO := λ A B k m t,
  match m t with
  | (Done a, t') => k a t'
  | (Failed f, t') => (Failed f, t')
  end.

Definition throw {A} (f : failure) : IO A := λ t, (Failed f, t).

(** A computation on frames, run in the session: its frames are the
    session's, and what it prints goes to the screen. *)
Definition liftM {A} (m : M A) : IO A := λ t,
  let '(o, w) := m (World (objects t) []) in
  (match o with Ret a => Done a | Raise e => Failed (Py e) end,
   Terminal (frames w) (screen t ++ map Stat (stdout w)) (canvas t)).

Definition say (s : string) : IO unit := λ t,
  (Done tt, Terminal (objects t) (screen t ++ [Text s]) (canvas t)).

Definition ask (s : string) : IO unit := λ t,
  (Done tt, Terminal (objects t) (screen t ++ [Prompt s]) (canvas t)).

Definition draw (c : call) : IO unit := λ t,
  (Done tt, Terminal (objects t) (screen t) (canvas t ++ [c])).

Definition new (d : DataFrame) : IO ref := λ t,
  (Done (length (objects t)), Terminal (objects t ++ [d]) (screen t) (canvas t)).

(** A line feed. *)
Definition nl : string := String (ascii_of_nat 10) EmptyString.

(** covid-19.py, lines 11-23.  [net] is what the download and the parsing
    of the dates give: the rows, or the message of the exception raised. *)
Definition load_covid_data (net : string + DataFrame) : IO (option ref) :=
  say "Loading data... This might take a few moments.";;
  match net with
  | inr d =>
      df ← new d;
      say "Data loaded successfully!";;
      mret (Some df)
  | inl e =>
      say ("Error loading data: " +:+ e);;
      mret None
  end.

(** covid-19.py, lines 44-80. *)
Definition plot_covid_trends (df : ref) (country : string) : IO unit :=
  country_data ← liftM (get_country_data df country);
  n ← liftM (pd.len country_data);
  if (n =? 0)%nat then
    liftM (print (NoData country))
  else
    d ← liftM (read country_data);
    draw (Subplots 2 1 12 10);;
    draw (Plot Ax1 (map date d) (map total_cases d) "Total Cases" "blue");;
    draw (Plot Ax1 (map date d) (map total_deaths d) "Total Deaths" "red");;
    draw (SetTitle Ax1 ("COVID-19 Total Cases and Deaths in " +:+ country));;
    draw (SetXLabel Ax1 "Date");;
    draw (SetYLabel Ax1 "Count");;
    draw (Legend Ax1);;
    draw (Grid Ax1 true);;
    draw (TickParams Ax1 "x" 45);;
    draw (Bar Ax2 (map date d) (map new_cases d) "New Cases" 0.5%float "blue");;
    draw (Bar Ax2 (map date d) (map new_deaths d) "New Deaths" 0.5%float "red");;
    draw (SetTitle Ax2 ("COVID-19 Daily New Cases and Deaths in " +:+ country));;
    draw (SetXLabel Ax2 "Date");;
    draw (SetYLabel Ax2 "Count");;
    draw (Legend Ax2);;
    draw (Grid Ax2 true);;
    draw (TickParams Ax2 "x" 45);;
    draw TightLayout;;
    draw Show.

(** [country in df['location'].values]. *)
Definition location_contains (df : ref) (country : string) : M bool :=
  d ← read df;
  mret (bool_decide (country ∈ map location d)).

(** [for i, country in enumerate(countries, start): print(f"{i}. {country}")]. *)
Fixpoint print_numbered (start : nat) (countries : list string) : IO unit :=
  match countries with
  | [] => mret tt
  | country :: countries' =>
      say (pretty start +:+ ". " +:+ country);;
      print_numbered (S start) countries'
  end.

(** covid-19.py, lines 115-142: the menu loop, reading the lines [stdin];
    [input] raises EOFError when none is left. *)
Fixpoint menu_loop (df_cleaned : ref) (stdin : list string) : IO unit :=
  say (nl +:+ "=== COVID-19 Data Tracker ===");;
  say "1. View data for a specific country";;
  say "2. List available countries";;
  say "3. Exit";;
  ask (nl +:+ "Enter your choice (1-3): ");;
  match stdin with
  | [] => throw EOFError
  | choice :: stdin =>
      if String.eqb choice "1" then
        ask (nl +:+ "Enter country name: ");;
        match stdin with
        | [] => throw EOFError
        | country :: stdin =>
            known ← liftM (location_contains df_cleaned country);
            (if known : bool then
               liftM (display_country_stats df_cleaned country);;
               plot_covid_trends df_cleaned country
             else
               say (nl +:+ "Country '" +:+ country
                    +:+ "' not found. Please check the available countries list."));;
            menu_loop df_cleaned stdin
        end
      else if String.eqb choice "2" then
        countries ← liftM (get_available_countries df_cleaned);
        say (nl +:+ "Available countries:");;
        print_numbered 1 countries;;
        menu_loop df_cleaned stdin
      else if String.eqb choice "3" then
        say (nl +:+ "Thank you for using the COVID-19 Data Tracker!")
      else
        say (nl +:+ "Invalid choice. Please try again.");;
        menu_loop df_cleaned stdin
  end.

(** covid-19.py, lines 104-142. *)
Definition main (net : string + DataFrame) (stdin : list string) : IO unit :=
  df ← load_covid_data net;
  match df with
  | None => mret tt
  | Some df =>
      df_cleaned ← liftM (clean_data df);
      menu_loop df_cleaned stdin
  end.

(** * Vocabulary of the statements *)

(** ** States *)

(** The state after [ds] were allocated in [w], in that order. *)
Definition allocated (w : world) (ds : list DataFrame) : world :=
  World (frames w ++ ds) (stdout w).

(** The state after [ls] were printed in [w], in that order. *)
Definition printed (w : world) (ls : list line) : world :=
  World (frames w) (stdout w ++ ls).

(** A session in which the loaded frame is the only object. *)
Definition loaded (D : DataFrame) : world := World [D] [].

(** ** Rows *)

(** The rows that [dropna] keeps, and the rows of the cleaned frame. *)
Definition kept (D : DataFrame) : DataFrame :=
  List.filter (λ r, negb (pd.all_na crucial_columns r)) D.

Definition cleaned (D : DataFrame) : DataFrame := map (pd.fill_row 0%float) (kept D).

(** The rows that the boolean mask of [get_country_data] selects. *)
Definition country_rows (D : DataFrame) (country : string) : DataFrame :=
  pd.select D (map (λ r, String.eqb (location r) country) D).

(** The state in which the report is printed: the mask selection and its
    copy have been allocated. *)
Definition queried (w : world) (D : DataFrame) (country : string) : world :=
  allocated w [country_rows D country; country_rows D country].

(** Both crucial cells of the row are absent. *)
Definition both_absent (r : Row) : Prop :=
  isna (total_cases r) = true ∧ isna (total_deaths r) = true.

#[global] Instance both_absent_dec r : Decision (both_absent r).
Proof. unfold both_absent. apply _. Defined.

(** No float64 cell of the row is absent. *)
Definition all_present (r : Row) : Prop :=
  ∀ col, col ∈ numeric_columns → isna (col r) = false.

(** No float64 cell of the row is an infinity. *)
Definition no_infinity (r : Row) : Prop :=
  ∀ col, col ∈ numeric_columns → ∀ s, decode (col r) ≠ S754_infinity s.

(** Rows in ascending order of date. *)
Definition by_date (a b : Row) : Prop := date a ≤ date b.

(** ** Integer parts and hundredths of exact values *)

(** [k] is the integer part of [m * 2^e]. *)
Definition integer_part (m : positive) (e : Z) (k : Z) : Prop :=
  if 0 <=? e then k = Z.pos m * 2 ^ e
  else 0 ≤ k ∧ k * 2 ^ (- e) ≤ Z.pos m < (k + 1) * 2 ^ (- e).

(** [n] is the finite float [x] without its fraction: zero for a zero, else
    the integer part of the magnitude with the sign of [x]. *)
Definition truncation_of (x : float) (n : Z) : Prop :=
  match decode x with
  | S754_zero _ => n = 0
  | S754_finite s m e => ∃ k, n = signed s k ∧ integer_part m e k
  | S754_infinity _ | S754_nan => False
  end.



(** ** The report of a row *)

(** The vaccination line of the report, when there is one. *)
Definition vaccination_lines (r : Row) : list line :=
  if gt0 (total_vaccinations r) then
    match py_int (total_vaccinations r) with
    | inl n => [TotalVaccinations n]
    | inr _ => []
    end
  else [].

(** The fatality-rate line of the report, when there is one. *)
Definition rate_lines (r : Row) : list line :=
  if gt0 (total_cases r) then
    [CaseFatalityRate
       (format_2f (total_deaths r / total_cases r * 100)%float)]
  else [].

(** The lines of a report whose [int] conversions gave [a] and [b]. *)
Definition report_lines (country : string) (r : Row) (a b : Z) : list line :=
  [Header country; LastUpdated (date r); TotalCases a; TotalDeaths b]
    ++ vaccination_lines r ++ rate_lines r.

Definition plus_infinity (x : float) : bool :=
  match decode x with
  | S754_infinity false => true
  | _ => false
  end.

(** [total_cases] and [total_deaths] are finite numbers (neither absent nor
    infinite) and [total_vaccinations] is not plus infinity: [int] succeeds
    wherever the report applies it to the row. *)
Definition reportable (r : Row) : bool :=
  finite (total_cases r) && finite (total_deaths r)
  && negb (plus_infinity (total_vaccinations r)).

(** ** Scenarios *)

(** Two rows for Testland and one row for Emptyland whose crucial cells
    are both absent; the cells no scenario mentions are absent. *)
Definition testland_1 : Row :=
  mkRow "Testland" (18628 * day_ns) 100 2 nan nan nan.

Definition testland_2 : Row :=
  mkRow "Testland" (18629 * day_ns) 150 3 nan nan nan.

Definition emptyland : Row :=
  mkRow "Emptyland" (18629 * day_ns) nan nan 7 nan nan.

Definition scenario : DataFrame := [testland_1; emptyland; testland_2].

(** The two Testland rows, the later one first. *)
Definition unordered : DataFrame := [testland_2; testland_1].

(** A Testland row whose [total_deaths] is absent, and one whose
    [total_cases] is absent and which has vaccinations. *)
Definition absent_deaths : Row :=
  mkRow "Testland" (18629 * day_ns) 5 nan nan nan nan.

Definition absent_cases : Row :=
  mkRow "Testland" (18629 * day_ns) nan 3 nan nan 10.

Definition four_locations : DataFrame :=
  map (λ s, mkRow s 0 nan nan nan nan nan) ["Brazil"; "Chad"; "Brazil"; "Aland"].

(** ** Checks on whole frames *)

(** No float64 cell of any row is absent. *)
Definition complete (D : DataFrame) : bool :=
  forallb (λ r, forallb (λ col, negb (isna (col r))) numeric_columns) D.

Definition infinite (x : float) : bool :=
  match decode x with
  | S754_infinity _ => true
  | _ => false
  end.

(** No float64 cell of any row is an infinity. *)
Definition no_infinities (D : DataFrame) : bool :=
  forallb (λ r, forallb (λ col, negb (infinite (col r))) numeric_columns) D.

(** A frame with every cell present. *)
Definition full_rows : DataFrame :=
  [mkRow "Testland" (18628 * day_ns) 100 2 100 2 0;
   mkRow "Otherland" (18628 * day_ns) 7 0 7 0 12;
   mkRow "Testland" (18629 * day_ns) 150 3 50 1 40].

(** A row of Testland whose [total_cases] is absent and whose
    [total_deaths] is present, after the two Testland rows. *)
Definition cases_unreported : DataFrame :=
  [testland_1; testland_2; mkRow "Testland" (18630 * day_ns) nan 4 nan nan nan].

(** ** The session *)

(** The terminal after [fs] were allocated, [ls] written and [cs] drawn. *)
Definition advanced (t : terminal) (fs : list DataFrame) (ls : list text)
    (cs : list call) : terminal :=
  Terminal (objects t ++ fs) (screen t ++ ls) (canvas t ++ cs).

(** The terminal after [ls] were written. *)
Definition typed (t : terminal) (ls : list text) : terminal :=
  Terminal (objects t) (screen t ++ ls) (canvas t).

(** A session that has not begun. *)
Definition blank : terminal := Terminal [] [] [].

(** What every turn of the menu loop writes first. *)
Definition menu_lines : list text :=
  [Text (nl +:+ "=== COVID-19 Data Tracker ===");
   Text "1. View data for a specific country";
   Text "2. List available countries";
   Text "3. Exit";
   Prompt (nl +:+ "Enter your choice (1-3): ")].

Definition goodbye : text :=
  Text (nl +:+ "Thank you for using the COVID-19 Data Tracker!").

Definition invalid_choice : text :=
  Text (nl +:+ "Invalid choice. Please try again.").

Definition country_prompt : text := Prompt (nl +:+ "Enter country name: ").

Definition not_found (country : string) : text :=
  Text (nl +:+ "Country '" +:+ country
        +:+ "' not found. Please check the available countries list.").

(** The numbered lines of a list of countries. *)
Definition numbered (start : nat) (countries : list string) : list text :=
  imap (λ i country, Text (pretty (start + i)%nat +:+ ". " +:+ country)) countries.

(** The plotting calls for the rows [d] of a country. *)
Definition chart (country : string) (d : DataFrame) : list call :=
  [Subplots 2 1 12 10;
   Plot Ax1 (map date d) (map total_cases d) "Total Cases" "blue";
   Plot Ax1 (map date d) (map total_deaths d) "Total Deaths" "red";
   SetTitle Ax1 ("COVID-19 Total Cases and Deaths in " +:+ country);
   SetXLabel Ax1 "Date";
   SetYLabel Ax1 "Count";
   Legend Ax1;
   Grid Ax1 true;
   TickParams Ax1 "x" 45;
   Bar Ax2 (map date d) (map new_cases d) "New Cases" 0.5%float "blue";
   Bar Ax2 (map date d) (map new_deaths d) "New Deaths" 0.5%float "red";
   SetTitle Ax2 ("COVID-19 Daily New Cases and Deaths in " +:+ country);
   SetXLabel Ax2 "Date";
   SetYLabel Ax2 "Count";
   Legend Ax2;
   Grid Ax2 true;
   TickParams Ax2 "x" 45;
   TightLayout;
   Show].

(** [t'] comes after [t] in a session: frames, text and plotting calls
    were only added, and none of the added text is a no-data line. *)
Definition follows (t t' : terminal) : Prop :=
  ∃ fs ls cs,
    t' = advanced t fs ls cs ∧ ∀ c, Stat (NoData c) ∉ ls.

(** What [load_covid_data] writes. *)
Definition loading : text := Text "Loading data... This might take a few moments.".

Definition loaded_ok : text := Text "Data loaded successfully!".

Definition load_error (e : string) : text := Text ("Error loading data: " +:+ e).

(** The heading of the list of countries. *)
Definition available : text := Text (nl +:+ "Available countries:").

(** How a session can end: normally, at the end of the input, or on an
    infinite value met by [int]. *)
Definition ends_well (o : result unit) : Prop :=
  o = Done tt ∨ o = Failed EOFError ∨ o = Failed (Py OverflowError).

(** * Properties *)

(** ** Cells *)

Section cells.

Lemma isna_zero : isna 0%float = false.
Proof. reflexivity. Qed.

Lemma fill_present (v x : float) : isna v = false → isna (pd.fill v x) = false.
Proof. intros Hv. unfold pd.fill. by destruct (isna x) eqn:E. Qed.

Lemma finite_py_int (x : float) : finite x = true → ∃ n, py_int x = inl n.
Proof.
  unfold finite, py_int. destruct (decode x); intros ?; by eauto.
Qed.

(** The comparisons of the program, read on the decoded value. *)
Lemma gt0_decode (x : float) :
  gt0 x = true ↔
  decode x = S754_infinity false ∨ ∃ m e, decode x = S754_finite false m e.
Proof.
  unfold gt0, decode. rewrite FloatAxioms.ltb_spec.
  change (FloatOps.Prim2SF 0) with (S754_zero false).
  destruct (FloatOps.Prim2SF x) as [s|s| |s m e]; simpl.
  - split; [done|]. intros [?|(?&?&?)]; done.
  - destruct s; simpl; (split; [try done; eauto|]); try done.
    all: intros [?|(?&?&?)]; done.
  - split; [done|]. intros [?|(?&?&?)]; done.
  - destruct s; simpl; (split; [try done; eauto|]); try done.
    intros [?|(?&?&?)]; done.
Qed.


Lemma isna_decode (x : float) : isna x = true ↔ decode x = S754_nan.
Proof.
  unfold isna, decode, FloatOps.Prim2SF.
  destruct (is_nan x); [done|]. split; [done|].
  destruct (is_zero x); [done|]. destruct (is_infinity x); [done|].
  destruct (FloatOps.Z.frexp x) as [r e].
  destruct (shr_fexp _ _ _ _ _) as [shr e'].
  by destruct (shr_m shr).
Qed.


Lemma gt0_finite (x : float) :
  gt0 x = true → decode x ≠ S754_infinity false → finite x = true.
Proof.
  rewrite gt0_decode. unfold finite. intros [E|(m & e & E)] Hx; [done|].
  by rewrite E.
Qed.

Lemma py_int_raises (x : float) (e : exn) :
  py_int x = inr e → e = ValueError ∨ e = OverflowError.
Proof.
  unfold py_int. destruct (decode x); intros [= <-]; tauto.
Qed.

Lemma fill_finite (x : float) :
  (∀ s, decode x ≠ S754_infinity s) → finite (pd.fill 0%float x) = true.
Proof.
  intros Hx. unfold pd.fill. destruct (isna x) eqn:E; [done|].
  unfold finite. destruct (decode x) as [s|s| |s m e] eqn:Ed; try done.
  - by destruct (Hx s).
  - apply isna_decode in Ed. congruence.
Qed.

End cells.

(** ** Rounding and truncation on the exact value *)

Section rounding.



Lemma trunc_mag_integer_part (m : positive) (e : Z) :
  integer_part m e (trunc_mag m e).
Proof.
  unfold integer_part, trunc_mag.
  destruct (Z.leb_spec 0 e) as [He|He]; [done|].
  assert (0 < 2 ^ (- e)) as Hd by (apply Z.pow_pos_nonneg; lia).
  pose proof (Z.div_mod (Z.pos m) (2 ^ (- e)) ltac:(lia)) as Hdm.
  pose proof (Z.mod_pos_bound (Z.pos m) (2 ^ (- e)) Hd) as Hr.
  split; [apply Z.div_pos; lia|]. nia.
Qed.

Lemma py_int_truncation (x : float) (n : Z) :
  py_int x = inl n → truncation_of x n.
Proof.
  unfold py_int, truncation_of. destruct (decode x) as [s|s| |s m e]; try done.
  - by intros [= <-].
  - intros [= <-]. eexists; split; [done|]. apply trunc_mag_integer_part.
Qed.


End rounding.

(** ** Running the pandas operations on a live frame *)

Section runs.

Implicit Types (w : world) (df : ref) (D : DataFrame).

Lemma allocated_live w ds df D :
  frames w !! df = Some D → frames (allocated w ds) !! df = Some D.
Proof. intros H. simpl. by apply lookup_app_l_Some. Qed.

Lemma allocated_new w D : frames (allocated w [D]) !! length (frames w) = Some D.
Proof. simpl. by rewrite list_lookup_middle. Qed.

Lemma allocated_allocated w ds1 ds2 :
  allocated (allocated w ds1) ds2 = allocated w (ds1 ++ ds2).
Proof. unfold allocated. simpl. by rewrite <- app_assoc. Qed.

Lemma bind_ret {A B} (m : M A) (k : A → M B) w a w' :
  m w = (Ret a, w') → (m ≫= k) w = k a w'.
Proof. intros H. unfold mbind, M_bind. by rewrite H. Qed.

Lemma read_live w df D : frames w !! df = Some D → read df w = (Ret D, w).
Proof. intros H. unfold read. by rewrite H. Qed.

Lemma dropna_all_run w df D subset :
  frames w !! df = Some D →
  pd.dropna_all df subset w =
    (Ret (length (frames w)),
     allocated w [List.filter (λ r, negb (pd.all_na subset r)) D]).
Proof. intros H. unfold pd.dropna_all. by rewrite (bind_ret _ _ _ _ _ (read_live _ _ _ H)). Qed.

Lemma fillna_run w df D v :
  frames w !! df = Some D →
  pd.fillna df v w = (Ret (length (frames w)), allocated w [map (pd.fill_row v) D]).
Proof. intros H. unfold pd.fillna. by rewrite (bind_ret _ _ _ _ _ (read_live _ _ _ H)). Qed.

Lemma location_eq_run w df D s :
  frames w !! df = Some D →
  pd.location_eq df s w = (Ret (map (λ r, String.eqb (location r) s) D), w).
Proof. intros H. unfold pd.location_eq. by rewrite (bind_ret _ _ _ _ _ (read_live _ _ _ H)). Qed.

Lemma getitem_mask_run w df D mask :
  frames w !! df = Some D →
  pd.getitem_mask df mask w = (Ret (length (frames w)), allocated w [pd.select D mask]).
Proof. intros H. unfold pd.getitem_mask. by rewrite (bind_ret _ _ _ _ _ (read_live _ _ _ H)). Qed.

Lemma copy_run w df D :
  frames w !! df = Some D → pd.copy df w = (Ret (length (frames w)), allocated w [D]).
Proof. intros H. unfold pd.copy. by rewrite (bind_ret _ _ _ _ _ (read_live _ _ _ H)). Qed.

Lemma len_run w df D : frames w !! df = Some D → pd.len df w = (Ret (length D), w).
Proof. intros H. unfold pd.len. by rewrite (bind_ret _ _ _ _ _ (read_live _ _ _ H)). Qed.

Lemma iloc_last_run w df D r :
  frames w !! df = Some D → last D = Some r → pd.iloc df (-1) w = (Ret r, w).
Proof.
  intros H Hl. unfold pd.iloc. rewrite (bind_ret _ _ _ _ _ (read_live _ _ _ H)).
  apply last_Some in Hl as [D' ->]. rewrite length_app. simpl.
  replace (Z.of_nat (length D' + 1) + -1) with (Z.of_nat (length D')) by lia.
  replace (-1 <? 0) with true by done.
  destruct (Z.leb_spec 0 (Z.of_nat (length D'))); [|lia].
  destruct (Z.ltb_spec (Z.of_nat (length D')) (Z.of_nat (length D' + 1))); [|lia].
  simpl. rewrite Nat2Z.id, list_lookup_middle; done.
Qed.

Lemma clean_data_run w df D :
  frames w !! df = Some D →
  clean_data df w = (Ret (S (length (frames w))), allocated w [kept D; cleaned D]).
Proof.
  intros H. unfold clean_data.
  rewrite (bind_ret _ _ _ _ _ (dropna_all_run _ _ _ _ H)).
  rewrite (bind_ret _ _ _ _ _ (fillna_run _ _ _ _ (allocated_new _ _))).
  rewrite allocated_allocated. unfold mret, M_ret. simpl.
  by rewrite length_app, Nat.add_comm.
Qed.

Lemma get_country_data_run w df D country :
  frames w !! df = Some D →
  get_country_data df country w =
    (Ret (S (length (frames w))),
     allocated w [country_rows D country; country_rows D country]).
Proof.
  intros H. unfold get_country_data.
  rewrite (bind_ret _ _ _ _ _ (location_eq_run _ _ _ _ H)).
  rewrite (bind_ret _ _ _ _ _ (getitem_mask_run _ _ _ _ H)).
  rewrite (copy_run _ _ _ (allocated_new _ _)).
  rewrite allocated_allocated. simpl.
  by rewrite length_app, Nat.add_comm.
Qed.

Lemma allocated_second w D1 D2 :
  frames (allocated w [D1; D2]) !! S (length (frames w)) = Some D2.
Proof.
  simpl. replace (frames w ++ [D1; D2]) with ((frames w ++ [D1]) ++ [D2])
    by (by rewrite <- app_assoc).
  apply list_lookup_middle. rewrite length_app. simpl. lia.
Qed.

Lemma unique_location_run w df D :
  frames w !! df = Some D →
  pd.unique_location df w = (Ret (pd.unique_from [] (map location D)), w).
Proof. intros H. unfold pd.unique_location. by rewrite (bind_ret _ _ _ _ _ (read_live _ _ _ H)). Qed.

Lemma get_available_countries_run w df D :
  frames w !! df = Some D →
  get_available_countries df w =
    (Ret (sorted (pd.unique_from [] (map location D))), w).
Proof.
  intros H. unfold get_available_countries.
  by rewrite (bind_ret _ _ _ _ _ (unique_location_run _ _ _ H)).
Qed.

End runs.

(** ** Rows kept, rows selected *)

Section rows.

Implicit Types (D : DataFrame) (r : Row).

Lemma all_na_crucial r : pd.all_na crucial_columns r = true ↔ both_absent r.
Proof.
  unfold pd.all_na, crucial_columns, both_absent. simpl.
  rewrite !andb_true_iff. tauto.
Qed.

Lemma kept_filter D : kept D = filter (λ r, ¬ both_absent r) D.
Proof.
  unfold kept. induction D as [|r D IH]; [done|].
  rewrite (filter_cons (λ r, ¬ both_absent r)). cbn [List.filter]. rewrite IH.
  destruct (pd.all_na crucial_columns r) eqn:E; cbn [negb].
  - apply all_na_crucial in E. by rewrite decide_False by tauto.
  - rewrite decide_True; [done|]. rewrite <- all_na_crucial. congruence.
Qed.

Lemma dropped_filter D :
  length D = (length (kept D) + length (filter both_absent D))%nat.
Proof.
  rewrite kept_filter. induction D as [|r D IH]; [done|].
  rewrite (filter_cons (λ r, ¬ both_absent r)), (filter_cons both_absent).
  assert (both_absent r ∨ ¬ both_absent r) as [Hr|Hr]
    by (destruct (decide (both_absent r)); tauto).
  - rewrite (decide_False (P := ¬ both_absent r)) by tauto.
    rewrite (decide_True (P := both_absent r)) by done.
    rewrite !length_cons, IH, Nat.add_succ_r. reflexivity.
  - rewrite (decide_True (P := ¬ both_absent r)) by done.
    rewrite (decide_False (P := both_absent r)) by done.
    rewrite !length_cons, IH. reflexivity.
Qed.

Lemma fill_row_columns v r col :
  col ∈ numeric_columns → col (pd.fill_row v r) = pd.fill v (col r).
Proof.
  unfold numeric_columns. rewrite !elem_of_cons, elem_of_nil.
  intros [->|[->|[->|[->|[->|[]]]]]]; done.
Qed.

Lemma fill_row_all_present r : all_present (pd.fill_row 0%float r).
Proof.
  intros col Hcol. rewrite fill_row_columns by done.
  by apply fill_present.
Qed.

Lemma fill_row_both_absent r : ¬ both_absent (pd.fill_row 0%float r).
Proof.
  intros [H _]. simpl in H. by rewrite fill_present in H.
Qed.

Lemma country_rows_filter D country :
  country_rows D country = filter (λ r, location r = country) D.
Proof.
  unfold country_rows. induction D as [|r D IH]; [done|].
  rewrite (filter_cons (λ r, location r = country)). cbn [map pd.select].
  rewrite IH.
  destruct (String.eqb_spec (location r) country) as [E|E].
  - by rewrite decide_True.
  - by rewrite decide_False.
Qed.

End rows.

(** ** Distinct values and sorting *)

Section locations.

Implicit Types (l seen : list string) (x y : string).

Lemma unique_from_elem_of seen l x :
  x ∈ pd.unique_from seen l ↔ x ∈ l ∧ x ∉ seen.
Proof.
  revert seen. induction l as [|y l IH]; intros seen; simpl.
  - rewrite elem_of_nil. tauto.
  - case_bool_decide as Hy.
    + rewrite IH, elem_of_cons. split; [tauto|].
      intros [[->|?] ?]; tauto.
    + rewrite !elem_of_cons, IH, elem_of_cons.
      destruct (decide (x = y)) as [->|Hne]; tauto.
Qed.

Lemma unique_from_NoDup seen l : NoDup (pd.unique_from seen l).
Proof.
  revert seen. induction l as [|y l IH]; intros seen; simpl.
  - constructor.
  - case_bool_decide as Hy; [apply IH|].
    apply NoDup_cons. split; [|apply IH].
    rewrite unique_from_elem_of, elem_of_cons. tauto.
Qed.

Lemma str_compare_refl x : String.compare x x = Eq.
Proof.
  induction x as [|a x IH]; [done|]. simpl.
  unfold Ascii.compare. by rewrite N.compare_refl.
Qed.

Lemma str_compare_trans_le x y z :
  String.compare x y ≠ Gt → String.compare y z ≠ Gt → String.compare x z ≠ Gt.
Proof.
  revert y z. induction x as [|a x IH]; intros [|b y] [|c z]; simpl; try done.
  unfold Ascii.compare.
  destruct (N.compare_spec (N_of_ascii a) (N_of_ascii b)) as [Hab|Hab|Hab];
    destruct (N.compare_spec (N_of_ascii b) (N_of_ascii c)) as [Hbc|Hbc|Hbc];
    destruct (N.compare_spec (N_of_ascii a) (N_of_ascii c)) as [Hac|Hac|Hac];
    try done; try lia.
  apply IH.
Qed.

Lemma str_le_compare x y : str_le x y ↔ String.compare x y ≠ Gt.
Proof. unfold str_le, String.leb. by destruct (String.compare x y). Qed.

Lemma str_lt_compare x y : str_lt x y ↔ String.compare x y = Lt.
Proof. unfold str_lt, String.ltb. by destruct (String.compare x y). Qed.

#[global] Instance str_le_refl : Reflexive str_le.
Proof. intros x. apply str_le_compare. by rewrite str_compare_refl. Qed.

#[global] Instance str_le_trans : Transitive str_le.
Proof. intros x y z. rewrite !str_le_compare. apply str_compare_trans_le. Qed.

#[global] Instance str_le_total : Total str_le.
Proof. intros x y. apply String.leb_total. Qed.

#[global] Instance str_le_antisym : AntiSymm (=) str_le.
Proof. intros x y. apply String.leb_antisym. Qed.

Lemma str_le_ne_lt x y : str_le x y → x ≠ y → str_lt x y.
Proof.
  rewrite str_le_compare, str_lt_compare. intros Hle Hne.
  destruct (String.compare x y) eqn:E; try done.
  by apply String.compare_eq_iff in E.
Qed.

Lemma sorted_Permutation l : sorted l ≡ₚ l.
Proof. apply merge_sort_Permutation. Qed.

Lemma sorted_elem_of l x : x ∈ sorted l ↔ x ∈ l.
Proof. by rewrite sorted_Permutation. Qed.

Lemma sorted_StronglySorted l : StronglySorted str_le (sorted l).
Proof. apply StronglySorted_merge_sort; apply _. Qed.

(** A list without repetition that is ascending is strictly ascending:
    each element is below every later one. *)
Lemma StronglySorted_strict l :
  StronglySorted str_le l → NoDup l → StronglySorted str_lt l.
Proof.
  induction 1 as [|x l Hl IH Hx]; intros Hnd; [constructor|].
  apply NoDup_cons in Hnd as [Hxl Hnd].
  constructor; [by apply IH|].
  apply Forall_forall. intros y Hy.
  apply str_le_ne_lt.
  - rewrite Forall_forall in Hx. by apply Hx.
  - intros ->. done.
Qed.

Lemma sorted_unique_strict l :
  StronglySorted str_lt (sorted (pd.unique_from [] l)).
Proof.
  apply StronglySorted_strict; [apply sorted_StronglySorted|].
  rewrite sorted_Permutation. apply unique_from_NoDup.
Qed.

Lemma sorted_unique_elem_of l x : x ∈ sorted (pd.unique_from [] l) ↔ x ∈ l.
Proof.
  rewrite sorted_elem_of, unique_from_elem_of, elem_of_nil. tauto.
Qed.

End locations.

(** ** Running the report *)

Section report.

Implicit Types (w : world) (df : ref) (D : DataFrame) (r : Row).

Ltac step := unfold mbind, M_bind, lift, mret, M_ret, raise, print; simpl.

Lemma print_stats_ok country r w a b :
  py_int (total_cases r) = inl a →
  py_int (total_deaths r) = inl b →
  (gt0 (total_vaccinations r) = true → finite (total_vaccinations r) = true) →
  print_stats country r w =
    (Ret tt,
     printed w ([Header country; LastUpdated (date r); TotalCases a; TotalDeaths b]
                ++ vaccination_lines r ++ rate_lines r)).
Proof.
  intros Ha Hb Hv. unfold print_stats, vaccination_lines, rate_lines, printed.
  step. rewrite Ha, Hb. simpl.
  destruct (gt0 (total_vaccinations r)) eqn:Ev.
  - destruct (finite_py_int _ (Hv eq_refl)) as [v ->]. simpl.
    destruct (gt0 (total_cases r)); simpl; by rewrite <- !app_assoc.
  - simpl. destruct (gt0 (total_cases r)); simpl; by rewrite <- !app_assoc.
Qed.

Lemma plus_infinity_decode (x : float) :
  plus_infinity x = false → decode x ≠ S754_infinity false.
Proof. unfold plus_infinity. intros H E. by rewrite E in H. Qed.

Lemma reportable_finite r :
  reportable r = true →
  finite (total_cases r) = true ∧ finite (total_deaths r) = true ∧
  decode (total_vaccinations r) ≠ S754_infinity false.
Proof.
  unfold reportable. rewrite !andb_true_iff, negb_true_iff.
  intros [[? ?] ?]. auto using plus_infinity_decode.
Qed.

Lemma print_stats_reportable country r w :
  reportable r = true →
  ∃ a b,
    py_int (total_cases r) = inl a ∧ py_int (total_deaths r) = inl b ∧
    print_stats country r w =
      (Ret tt,
       printed w ([Header country; LastUpdated (date r); TotalCases a; TotalDeaths b]
                  ++ vaccination_lines r ++ rate_lines r)).
Proof.
  intros (Hc & Hd & Hv)%reportable_finite.
  destruct (finite_py_int _ Hc) as [a Ha], (finite_py_int _ Hd) as [b Hb].
  exists a, b. split; [done|]. split; [done|]. apply print_stats_ok; [done..|].
  intros Hg. by apply gt0_finite.
Qed.

(** The report creates no frame and changes none, whatever it raises. *)
Lemma print_stats_frames country r w :
  frames (print_stats country r w).2 = frames w.
Proof.
  unfold print_stats. step.
  destruct (py_int (total_cases r)); simpl; [|done].
  destruct (py_int (total_deaths r)); simpl; [|done].
  destruct (gt0 (total_vaccinations r)); simpl.
  - destruct (py_int (total_vaccinations r)); simpl; [|done].
    by destruct (gt0 (total_cases r)).
  - by destruct (gt0 (total_cases r)).
Qed.

(** The report ends normally or in an exception of [int]. *)
Lemma print_stats_outcome country r w :
  (print_stats country r w).1 = Ret tt ∨
  (print_stats country r w).1 = Raise ValueError ∨
  (print_stats country r w).1 = Raise OverflowError.
Proof.
  unfold print_stats. step.
  destruct (py_int (total_cases r)) as [a|e] eqn:Ea; simpl;
    [|destruct (py_int_raises _ _ Ea) as [->| ->]; tauto].
  destruct (py_int (total_deaths r)) as [b|e] eqn:Eb; simpl;
    [|destruct (py_int_raises _ _ Eb) as [->| ->]; tauto].
  destruct (gt0 (total_vaccinations r)); simpl.
  - destruct (py_int (total_vaccinations r)) as [v|e] eqn:Ev; simpl;
      [|destruct (py_int_raises _ _ Ev) as [->| ->]; tauto].
    destruct (gt0 (total_cases r)); simpl; tauto.
  - destruct (gt0 (total_cases r)); simpl; tauto.
Qed.

(** The report begins with the header and the date of the row. *)
Lemma print_stats_begins country r w :
  stdout w ++ [Header country; LastUpdated (date r)]
    `prefix_of` stdout (print_stats country r w).2.
Proof.
  unfold print_stats. step.
  assert (∀ ls, stdout w ++ [Header country; LastUpdated (date r)]
            `prefix_of` stdout w ++ Header country :: LastUpdated (date r) :: ls)
    as Hp by (intros ls; exists ls; by rewrite <- app_assoc).
  destruct (py_int (total_cases r)); simpl;
    [|repeat rewrite <- app_assoc; apply Hp].
  destruct (py_int (total_deaths r)); simpl;
    [|repeat rewrite <- app_assoc; apply Hp].
  destruct (gt0 (total_vaccinations r)); simpl.
  - destruct (py_int (total_vaccinations r)); simpl;
      [|repeat rewrite <- app_assoc; apply Hp].
    destruct (gt0 (total_cases r)); simpl;
      repeat rewrite <- app_assoc; apply Hp.
  - destruct (gt0 (total_cases r)); simpl;
      repeat rewrite <- app_assoc; apply Hp.
Qed.

Lemma display_country_stats_run w df D country :
  frames w !! df = Some D →
  display_country_stats df country w =
    let w' := allocated w [country_rows D country; country_rows D country] in
    match last (country_rows D country) with
    | None => (Ret tt, printed w' [NoData country])
    | Some r => print_stats country r w'
    end.
Proof.
  intros H. unfold display_country_stats.
  rewrite (bind_ret _ _ _ _ _ (get_country_data_run _ _ _ country H)).
  rewrite (bind_ret _ _ _ _ _ (len_run _ _ _ (allocated_second _ _ _))).
  cbv zeta. destruct (last (country_rows D country)) as [r|] eqn:El.
  - pose proof El as El'. apply last_Some in El' as [S0 E0].
    replace (length (country_rows D country) =? 0)%nat with false
      by (rewrite E0, length_app; simpl; symmetry; apply Nat.eqb_neq; lia).
    by rewrite (bind_ret _ _ _ _ _ (iloc_last_run _ _ _ _ (allocated_second _ _ _) El)).
  - apply last_None in El. rewrite El. done.
Qed.

End report.

(** * Cleaning *)

(** C2. For every dataset [D], cleaning removes exactly the rows of [D] in
    which both [total_cases] and [total_deaths] are absent: the result is
    the rows of [D] that are not so, in their order and with their absent
    cells filled; the rows removed are as many as the rows with both absent;
    and no row of the result has both absent. *)
Theorem clean_data_drops_both_absent (w : world) (df : ref) (D : DataFrame) :
  frames w !! df = Some D →
  ∃ r w' D',
    clean_data df w = (Ret r, w') ∧ frames w' !! r = Some D' ∧
    D' = map (pd.fill_row 0%float) (filter (λ x, ¬ both_absent x) D) ∧
    length D = (length D' + length (filter both_absent D))%nat ∧
    Forall (λ x, ¬ both_absent x) D'.
Proof.
  intros H. eexists _, _, (cleaned D).
  split; [by apply clean_data_run|].
  split; [apply allocated_second|].
  unfold cleaned. split; [by rewrite kept_filter|].
  split; [rewrite length_map; apply dropped_filter|].
  apply Forall_forall. intros x Hx.
  apply list_elem_of_In, in_map_iff in Hx as (x0 & <- & _).
  apply fill_row_both_absent.
Qed.

Lemma clean_data_drops_both_absent_witness :
  frames (loaded scenario) !! 0%nat = Some scenario ∧
  ∃ r w' D',
    clean_data 0%nat (loaded scenario) = (Ret r, w') ∧ frames w' !! r = Some D' ∧
    D' = map (pd.fill_row 0%float) (filter (λ x, ¬ both_absent x) scenario) ∧
    length scenario = (length D' + length (filter both_absent scenario))%nat ∧
    Forall (λ x, ¬ both_absent x) D'.
Proof.
  split; [reflexivity|].
  apply (clean_data_drops_both_absent (loaded scenario) 0%nat scenario).
  reflexivity.
Defined.

(** C3. For every dataset [D], every row of the cleaned frame has all its
    cells present; it is a surviving row of [D] with the same location and
    date in which each absent cell, of whichever column, holds 0 and each
    present cell is unchanged. *)
Theorem clean_data_fills_absent (w : world) (df : ref) (D : DataFrame) :
  frames w !! df = Some D →
  ∃ r w' D',
    clean_data df w = (Ret r, w') ∧ frames w' !! r = Some D' ∧
    Forall all_present D' ∧
    Forall2 (λ x x',
               location x' = location x ∧ date x' = date x ∧
               ∀ col, col ∈ numeric_columns →
                      col x' = if isna (col x) then 0%float else col x)
            (filter (λ x, ¬ both_absent x) D) D'.
Proof.
  intros H. eexists _, _, (cleaned D).
  split; [by apply clean_data_run|].
  split; [apply allocated_second|].
  unfold cleaned. rewrite kept_filter.
  generalize (filter (λ x, ¬ both_absent x) D). intros K. split.
  - apply Forall_forall. intros x Hx.
    apply list_elem_of_In, in_map_iff in Hx as (x0 & <- & _).
    apply fill_row_all_present.
  - induction K as [|x K IH]; simpl; constructor; [|done].
    split; [done|]. split; [done|].
    intros col Hcol. by rewrite fill_row_columns.
Qed.

Lemma clean_data_fills_absent_witness :
  frames (loaded scenario) !! 0%nat = Some scenario ∧
  ∃ r w' D',
    clean_data 0%nat (loaded scenario) = (Ret r, w') ∧ frames w' !! r = Some D' ∧
    Forall all_present D' ∧
    Forall2 (λ x x',
               location x' = location x ∧ date x' = date x ∧
               ∀ col, col ∈ numeric_columns →
                      col x' = if isna (col x) then 0%float else col x)
            (filter (λ x, ¬ both_absent x) scenario) D'.
Proof.
  split; [reflexivity|].
  apply (clean_data_fills_absent (loaded scenario) 0%nat scenario).
  reflexivity.
Defined.

(** C9. Cleaning leaves its input as it was: the frame it is given still
    holds the same rows afterwards, the result is another object, every
    other frame is unchanged too, and nothing is printed. *)
Theorem clean_data_preserves_input (w : world) (df : ref) (D : DataFrame) :
  frames w !! df = Some D →
  ∃ r w',
    clean_data df w = (Ret r, w') ∧
    r ≠ df ∧
    frames w' !! df = Some D ∧
    (∀ k d, frames w !! k = Some d → frames w' !! k = Some d) ∧
    stdout w' = stdout w.
Proof.
  intros H. eexists _, _.
  split; [by apply clean_data_run|].
  split; [apply lookup_lt_Some in H; lia|].
  split; [by apply allocated_live|].
  split; [|done].
  intros k d Hk. by apply allocated_live.
Qed.

Lemma clean_data_preserves_input_witness :
  frames (loaded scenario) !! 0%nat = Some scenario ∧
  ∃ r w',
    clean_data 0%nat (loaded scenario) = (Ret r, w') ∧
    r ≠ 0%nat ∧
    frames w' !! 0%nat = Some scenario ∧
    (∀ k d, frames (loaded scenario) !! k = Some d → frames w' !! k = Some d) ∧
    stdout w' = stdout (loaded scenario).
Proof.
  split; [reflexivity|].
  apply (clean_data_preserves_input (loaded scenario) 0%nat scenario).
  reflexivity.
Defined.

(** * Queries *)

(** C4. For every dataset [D] and string [name], [get_country_data]
    returns, as a new frame, exactly the rows of [D] whose location is the
    string [name], character for character, in their order in [D]; when no
    row matches, the frame is empty and nothing is raised. *)
Theorem get_country_data_exact (w : world) (df : ref) (D : DataFrame) (name : string) :
  frames w !! df = Some D →
  ∃ r w' S,
    get_country_data df name w = (Ret r, w') ∧ frames w' !! r = Some S ∧
    S = filter (λ x, location x = name) D ∧
    S `sublist_of` D ∧
    (∀ x, x ∈ S ↔ x ∈ D ∧ location x = name) ∧
    ((∀ x, x ∈ D → location x ≠ name) → S = []).
Proof.
  intros H. eexists _, _, (country_rows D name).
  split; [by apply get_country_data_run|].
  split; [apply allocated_second|].
  rewrite country_rows_filter.
  assert (∀ x, x ∈ filter (λ x, location x = name) D ↔ x ∈ D ∧ location x = name)
    as Hin by (intros x; rewrite list_elem_of_filter; tauto).
  split; [done|]. split; [apply sublist_filter|]. split; [done|].
  intros Hno. destruct (filter (λ x, location x = name) D) as [|x S'] eqn:E; [done|].
  exfalso. destruct (proj1 (Hin x)) as [Hx Hl]; [left|]. by apply (Hno x).
Qed.

Lemma get_country_data_exact_witness :
  frames (loaded scenario) !! 0%nat = Some scenario ∧
  ∃ r w' S,
    get_country_data 0%nat "testland" (loaded scenario) = (Ret r, w') ∧
    frames w' !! r = Some S ∧
    S = filter (λ x, location x = "testland") scenario ∧
    S `sublist_of` scenario ∧
    (∀ x, x ∈ S ↔ x ∈ scenario ∧ location x = "testland") ∧
    ((∀ x, x ∈ scenario → location x ≠ "testland") → S = []).
Proof.
  split; [reflexivity|].
  apply (get_country_data_exact (loaded scenario) 0%nat scenario "testland").
  reflexivity.
Defined.

(** The match is on the exact string: a name in another case selects
    nothing. *)
Example country_rows_case_sensitive :
  country_rows scenario "Testland" = [testland_1; testland_2] ∧
  country_rows scenario "testland" = [] ∧
  country_rows scenario "Test" = [].
Proof. repeat split; reflexivity. Qed.

(** C5. For every dataset [D], the list of locations is ascending in the
    lexicographic order of strings, has no string twice (so each string is
    strictly below every later one), and holds only locations of rows of
    [D]; the frame is not changed.  On a dataset whose locations are Brazil,
    Chad, Brazil, Aland it is Aland, Brazil, Chad. *)
Theorem get_available_countries_sorted_distinct
    (w : world) (df : ref) (D : DataFrame) :
  frames w !! df = Some D →
  ∃ L,
    get_available_countries df w = (Ret L, w) ∧
    Sorted str_le L ∧
    NoDup L ∧
    StronglySorted str_lt L ∧
    (∀ s, s ∈ L → ∃ x, x ∈ D ∧ location x = s) ∧
    (map location D = ["Brazil"; "Chad"; "Brazil"; "Aland"] →
     L = ["Aland"; "Brazil"; "Chad"]).
Proof.
  intros H. eexists. split; [by apply get_available_countries_run|].
  split; [apply StronglySorted_Sorted, sorted_StronglySorted|].
  split; [rewrite sorted_Permutation; apply unique_from_NoDup|].
  split; [apply sorted_unique_strict|].
  split.
  - intros s Hs. rewrite sorted_unique_elem_of, list_elem_of_In, in_map_iff in Hs.
    destruct Hs as (x & Hx & Hin).
    exists x. split; [by apply list_elem_of_In|done].
  - intros ->. vm_compute. reflexivity.
Qed.

Lemma get_available_countries_sorted_distinct_witness :
  frames (loaded four_locations) !! 0%nat = Some four_locations ∧
  ∃ L,
    get_available_countries 0%nat (loaded four_locations)
      = (Ret L, loaded four_locations) ∧
    Sorted str_le L ∧
    NoDup L ∧
    StronglySorted str_lt L ∧
    (∀ s, s ∈ L → ∃ x, x ∈ four_locations ∧ location x = s) ∧
    (map location four_locations = ["Brazil"; "Chad"; "Brazil"; "Aland"] →
     L = ["Aland"; "Brazil"; "Chad"]).
Proof.
  split; [reflexivity|].
  apply (get_available_countries_sorted_distinct
           (loaded four_locations) 0%nat four_locations).
  reflexivity.
Defined.

(** C10. For every dataset [D], the list of locations is complete: a string
    is in it exactly when it is the location of a row of [D]. *)
Theorem get_available_countries_complete (w : world) (df : ref) (D : DataFrame) :
  frames w !! df = Some D →
  ∃ L,
    get_available_countries df w = (Ret L, w) ∧
    ∀ s, s ∈ L ↔ ∃ x, x ∈ D ∧ location x = s.
Proof.
  intros H. eexists. split; [by apply get_available_countries_run|].
  intros s. rewrite sorted_unique_elem_of, list_elem_of_In, in_map_iff.
  split; intros (x & Hx & Hin); exists x.
  - split; [by apply list_elem_of_In|done].
  - split; [done|by apply list_elem_of_In].
Qed.

Lemma get_available_countries_complete_witness :
  frames (loaded scenario) !! 0%nat = Some scenario ∧
  ∃ L,
    get_available_countries 0%nat (loaded scenario) = (Ret L, loaded scenario) ∧
    ∀ s, s ∈ L ↔ ∃ x, x ∈ scenario ∧ location x = s.
Proof.
  split; [reflexivity|].
  apply (get_available_countries_complete (loaded scenario) 0%nat scenario).
  reflexivity.
Defined.

(** * The report *)

Section report_lines.

Implicit Types (r : Row) (n a b : Z).

Lemma integer_part_unique (m : positive) (e : Z) (k : Z) :
  integer_part m e k → k = trunc_mag m e.
Proof.
  unfold integer_part, trunc_mag.
  destruct (Z.leb_spec 0 e) as [He|He]; [done|].
  intros [Hk [Hlo Hhi]].
  apply (Z.div_unique_pos _ _ _ (Z.pos m - k * 2 ^ (- e))); lia.
Qed.

Lemma truncation_py_int (x : float) n : truncation_of x n ↔ py_int x = inl n.
Proof.
  split; [|apply py_int_truncation].
  unfold truncation_of, py_int. destruct (decode x) as [s|s| |s m e]; try done.
  - by intros ->.
  - intros (k & -> & Hk). by rewrite (integer_part_unique _ _ _ Hk).
Qed.

Lemma report_lines_cases country r a b n :
  TotalCases n ∈ report_lines country r a b ↔ n = a.
Proof.
  unfold report_lines, vaccination_lines, rate_lines.
  destruct (gt0 (total_vaccinations r)), (py_int (total_vaccinations r)),
    (gt0 (total_cases r));
    rewrite ?elem_of_app, ?elem_of_cons, ?elem_of_nil; intuition congruence.
Qed.

Lemma report_lines_deaths country r a b n :
  TotalDeaths n ∈ report_lines country r a b ↔ n = b.
Proof.
  unfold report_lines, vaccination_lines, rate_lines.
  destruct (gt0 (total_vaccinations r)), (py_int (total_vaccinations r)),
    (gt0 (total_cases r));
    rewrite ?elem_of_app, ?elem_of_cons, ?elem_of_nil; intuition congruence.
Qed.

Lemma report_lines_vaccinations country r a b n :
  decode (total_vaccinations r) ≠ S754_infinity false →
  TotalVaccinations n ∈ report_lines country r a b ↔
  gt0 (total_vaccinations r) = true ∧ truncation_of (total_vaccinations r) n.
Proof.
  intros Hv. rewrite truncation_py_int.
  unfold report_lines, vaccination_lines, rate_lines.
  destruct (gt0 (total_vaccinations r)) eqn:Eg.
  - destruct (finite_py_int _ (gt0_finite _ Eg Hv)) as [v ->].
    destruct (gt0 (total_cases r));
      rewrite ?elem_of_app, ?elem_of_cons, ?elem_of_nil; intuition congruence.
  - destruct (gt0 (total_cases r));
      rewrite ?elem_of_app, ?elem_of_cons, ?elem_of_nil; intuition congruence.
Qed.

Lemma report_lines_rate country r a b x :
  CaseFatalityRate x ∈ report_lines country r a b ↔
  gt0 (total_cases r) = true ∧
  x = format_2f (total_deaths r / total_cases r * 100)%float.
Proof.
  unfold report_lines, vaccination_lines, rate_lines.
  destruct (gt0 (total_vaccinations r)), (py_int (total_vaccinations r)),
    (gt0 (total_cases r));
    rewrite ?elem_of_app, ?elem_of_cons, ?elem_of_nil; intuition congruence.
Qed.

Lemma report_lines_no_data country r a b c : NoData c ∉ report_lines country r a b.
Proof.
  unfold report_lines, vaccination_lines, rate_lines.
  destruct (gt0 (total_vaccinations r)), (py_int (total_vaccinations r)),
    (gt0 (total_cases r));
    rewrite ?elem_of_app, ?elem_of_cons, ?elem_of_nil; intuition congruence.
Qed.

Lemma display_country_stats_reportable w df D country r :
  frames w !! df = Some D →
  last (country_rows D country) = Some r →
  reportable r = true →
  ∃ a b,
    py_int (total_cases r) = inl a ∧ py_int (total_deaths r) = inl b ∧
    display_country_stats df country w =
      (Ret tt, printed (queried w D country) (report_lines country r a b)).
Proof.
  intros H Hl Hr. rewrite (display_country_stats_run _ _ _ _ H). cbv zeta.
  rewrite Hl. by apply print_stats_reportable.
Qed.

End report_lines.

#[global] Instance by_date_trans : Transitive by_date.
Proof. intros a b c. unfold by_date. lia. Qed.

Lemma by_date_last_max (S0 : DataFrame) (r : Row) :
  Sorted by_date (S0 ++ [r]) → Forall (λ x, date x ≤ date r) (S0 ++ [r]).
Proof.
  intros Hs. apply Sorted_StronglySorted in Hs; [|apply _].
  apply Forall_app. split.
  - apply Forall_forall. intros x Hx.
    apply (StronglySorted_app_1_elem_of by_date S0 [r]); [done..|]. by left.
  - apply Forall_singleton. lia.
Qed.

(** C1 (as amended). For every non-empty slice, the report is the report of
    the row that stands last in the slice, and it shows that row's date;
    when the slice is in ascending order of date, no row of the slice has a
    later date than that row, which is the last of those that share it. *)
Theorem display_country_stats_selects_last
    (w : world) (df : ref) (D : DataFrame) (country : string) :
  frames w !! df = Some D →
  (0 < length (country_rows D country))%nat →
  ∃ S0 r,
    country_rows D country = S0 ++ [r] ∧
    display_country_stats df country w = print_stats country r (queried w D country) ∧
    stdout w ++ [Header country; LastUpdated (date r)]
      `prefix_of` stdout (display_country_stats df country w).2 ∧
    (Sorted by_date (country_rows D country) →
     Forall (λ x, date x ≤ date r) (country_rows D country)).
Proof.
  intros H Hne.
  destruct (last (country_rows D country)) as [r|] eqn:El.
  - pose proof El as El'. apply last_Some in El' as [S0 E0].
    exists S0, r. split; [done|].
    assert (display_country_stats df country w
            = print_stats country r (queried w D country)) as Hrun
      by (rewrite (display_country_stats_run _ _ _ _ H); cbv zeta; by rewrite El).
    split; [done|]. split.
    + rewrite Hrun. apply (print_stats_begins country r (queried w D country)).
    + rewrite E0. apply by_date_last_max.
  - apply last_None in El. rewrite El in Hne. simpl in Hne. lia.
Qed.

Lemma display_country_stats_selects_last_witness :
  frames (loaded scenario) !! 0%nat = Some scenario ∧
  (0 < length (country_rows scenario "Testland"))%nat ∧
  Sorted by_date (country_rows scenario "Testland") ∧
  ∃ S0 r,
    country_rows scenario "Testland" = S0 ++ [r] ∧
    display_country_stats 0%nat "Testland" (loaded scenario)
      = print_stats "Testland" r (queried (loaded scenario) scenario "Testland") ∧
    stdout (loaded scenario) ++ [Header "Testland"; LastUpdated (date r)]
      `prefix_of` stdout (display_country_stats 0%nat "Testland" (loaded scenario)).2 ∧
    (Sorted by_date (country_rows scenario "Testland") →
     Forall (λ x, date x ≤ date r) (country_rows scenario "Testland")).
Proof.
  split; [reflexivity|]. split; [vm_compute; lia|].
  split; [repeat constructor; vm_compute; discriminate|].
  apply (display_country_stats_selects_last (loaded scenario) 0%nat scenario "Testland").
  - reflexivity.
  - vm_compute. lia.
Defined.

(** C1, as stated, fails where the slice is not in order of date: the row
    reported is the last one, although an earlier row has a later date. *)
Lemma display_country_stats_not_latest_by_date :
  (display_country_stats 0%nat "Testland" (loaded unordered)).1 = Ret tt ∧
  stdout (display_country_stats 0%nat "Testland" (loaded unordered)).2
    = [Header "Testland"; LastUpdated (date testland_1);
       TotalCases 100; TotalDeaths 2; CaseFatalityRate (Fixed false 200)] ∧
  testland_2 ∈ country_rows unordered "Testland" ∧
  date testland_1 < date testland_2.
Proof.
  split; [vm_compute; reflexivity|]. split; [vm_compute; reflexivity|].
  split; [left|reflexivity].
Qed.

(** C6 (as amended). On an empty slice the report is the no-data line and
    nothing else, and nothing is raised.  On a non-empty slice whose last
    row has finite [total_cases] and [total_deaths] and a
    [total_vaccinations] other than plus infinity, nothing is raised and the
    no-data line is not printed.  On every slice the outcome is a normal
    return or an exception of [int] (ValueError, OverflowError), and every
    frame that existed is unchanged. *)
Theorem display_country_stats_not_found
    (w : world) (df : ref) (D : DataFrame) (country : string) :
  frames w !! df = Some D →
  (country_rows D country = [] →
   display_country_stats df country w
     = (Ret tt, printed (queried w D country) [NoData country])) ∧
  (∀ r, last (country_rows D country) = Some r → reportable r = true →
        ∃ out,
          display_country_stats df country w
            = (Ret tt, printed (queried w D country) out) ∧
          ∀ c, NoData c ∉ out) ∧
  ((display_country_stats df country w).1 = Ret tt ∨
   (display_country_stats df country w).1 = Raise ValueError ∨
   (display_country_stats df country w).1 = Raise OverflowError) ∧
  (∀ k d, frames w !! k = Some d →
          frames (display_country_stats df country w).2 !! k = Some d).
Proof.
  intros H. pose proof (display_country_stats_run w df D country H) as Hrun.
  cbv zeta in Hrun. fold (queried w D country) in Hrun.
  split; [|split; [|split]].
  - intros E. by rewrite Hrun, E.
  - intros r Hl Hr.
    destruct (display_country_stats_reportable w df D country r H Hl Hr)
      as (a & b & _ & _ & Hd).
    eexists. split; [exact Hd|]. intros c. apply report_lines_no_data.
  - rewrite Hrun. destruct (last (country_rows D country)) as [r|]; [|by left].
    apply print_stats_outcome.
  - intros k d Hk. rewrite Hrun.
    destruct (last (country_rows D country)) as [r|].
    + rewrite print_stats_frames. by apply allocated_live.
    + simpl. by apply lookup_app_l_Some.
Qed.

Lemma display_country_stats_not_found_witness :
  frames (loaded scenario) !! 0%nat = Some scenario ∧
  (country_rows scenario "Atlantis" = [] →
   display_country_stats 0%nat "Atlantis" (loaded scenario)
     = (Ret tt, printed (queried (loaded scenario) scenario "Atlantis")
                  [NoData "Atlantis"])) ∧
  (∀ r, last (country_rows scenario "Atlantis") = Some r → reportable r = true →
        ∃ out,
          display_country_stats 0%nat "Atlantis" (loaded scenario)
            = (Ret tt, printed (queried (loaded scenario) scenario "Atlantis") out) ∧
          ∀ c, NoData c ∉ out) ∧
  ((display_country_stats 0%nat "Atlantis" (loaded scenario)).1 = Ret tt ∨
   (display_country_stats 0%nat "Atlantis" (loaded scenario)).1 = Raise ValueError ∨
   (display_country_stats 0%nat "Atlantis" (loaded scenario)).1 = Raise OverflowError) ∧
  (∀ k d, frames (loaded scenario) !! k = Some d →
          frames (display_country_stats 0%nat "Atlantis" (loaded scenario)).2 !! k
            = Some d).
Proof.
  split; [reflexivity|].
  apply (display_country_stats_not_found (loaded scenario) 0%nat scenario "Atlantis").
  reflexivity.
Defined.

(** C6, as stated, fails on a non-empty slice whose last row has an absent
    [total_deaths]: [int] raises ValueError, a failure that is not the
    no-data case. *)
Lemma display_country_stats_raises_on_absent :
  last (country_rows [absent_deaths] "Testland") = Some absent_deaths ∧
  isna (total_deaths absent_deaths) = true ∧
  display_country_stats 0%nat "Testland" (loaded [absent_deaths])
    = (Raise ValueError,
       printed (queried (loaded [absent_deaths]) [absent_deaths] "Testland")
         [Header "Testland"; LastUpdated (date absent_deaths); TotalCases 5]).
Proof. repeat split; vm_compute; reflexivity. Qed.




(** C8 (as amended). For every non-empty slice whose last row has finite
    [total_cases] and [total_deaths] and a [total_vaccinations] other than
    plus infinity, the report has one total-cases line and one total-deaths
    line, each showing the integer part of the cell, and it has a
    vaccinations line exactly when [total_vaccinations > 0], showing the
    integer part of that cell. *)
Theorem display_country_stats_totals
    (w : world) (df : ref) (D : DataFrame) (country : string) (r : Row) :
  frames w !! df = Some D →
  last (country_rows D country) = Some r →
  reportable r = true →
  ∃ a b out,
    display_country_stats df country w = (Ret tt, printed (queried w D country) out) ∧
    truncation_of (total_cases r) a ∧
    truncation_of (total_deaths r) b ∧
    (∀ n, TotalCases n ∈ out ↔ n = a) ∧
    (∀ n, TotalDeaths n ∈ out ↔ n = b) ∧
    (∀ n, TotalVaccinations n ∈ out ↔
          gt0 (total_vaccinations r) = true ∧
          truncation_of (total_vaccinations r) n).
Proof.
  intros H Hl Hr.
  destruct (display_country_stats_reportable w df D country r H Hl Hr)
    as (a & b & Ha & Hb & Hd).
  exists a, b. eexists. split; [exact Hd|].
  split; [by apply py_int_truncation|]. split; [by apply py_int_truncation|].
  split; [intros n; apply report_lines_cases|].
  split; [intros n; apply report_lines_deaths|].
  intros n. apply report_lines_vaccinations.
  by apply reportable_finite in Hr as (_ & _ & ?).
Qed.

Lemma display_country_stats_totals_witness :
  frames (loaded scenario) !! 0%nat = Some scenario ∧
  last (country_rows scenario "Testland") = Some testland_2 ∧
  reportable testland_2 = true ∧
  ∃ a b out,
    display_country_stats 0%nat "Testland" (loaded scenario)
      = (Ret tt, printed (queried (loaded scenario) scenario "Testland") out) ∧
    truncation_of (total_cases testland_2) a ∧
    truncation_of (total_deaths testland_2) b ∧
    (∀ n, TotalCases n ∈ out ↔ n = a) ∧
    (∀ n, TotalDeaths n ∈ out ↔ n = b) ∧
    (∀ n, TotalVaccinations n ∈ out ↔
          gt0 (total_vaccinations testland_2) = true ∧
          truncation_of (total_vaccinations testland_2) n).
Proof.
  split; [reflexivity|]. split; [reflexivity|]. split; [reflexivity|].
  apply (display_country_stats_totals (loaded scenario) 0%nat scenario "Testland"
           testland_2); reflexivity.
Defined.

(** C8, as stated, fails on a non-empty slice whose last row has an absent
    [total_cases]: the report stops at [int(total_cases)], so it has no
    total-cases line, and no vaccinations line although
    [total_vaccinations > 0]. *)
Lemma display_country_stats_totals_missing :
  last (country_rows [absent_cases] "Testland") = Some absent_cases ∧
  gt0 (total_vaccinations absent_cases) = true ∧
  (∀ n, TotalCases n
          ∉ stdout (display_country_stats 0%nat "Testland" (loaded [absent_cases])).2) ∧
  (∀ n, TotalVaccinations n
          ∉ stdout (display_country_stats 0%nat "Testland" (loaded [absent_cases])).2).
Proof.
  split; [reflexivity|]. split; [reflexivity|].
  split; intros n Hn; vm_compute in Hn;
    repeat (apply elem_of_cons in Hn as [Hn|Hn]; [discriminate|]);
    by apply elem_of_nil in Hn.
Qed.

(** What the fatality-rate line of the Testland scenario reads. *)
Example rate_shown :
  show_2f (format_2f (total_deaths testland_2 / total_cases testland_2 * 100)%float)
  = "2.00".
Proof. vm_compute. reflexivity. Qed.

(** * Reports from a cleaned frame *)

Lemma finite_not_plus_infinity (x : float) :
  finite x = true → plus_infinity x = false.
Proof. unfold finite, plus_infinity. by destruct (decode x). Qed.

Lemma fill_row_reportable (r : Row) :
  no_infinity r → reportable (pd.fill_row 0%float r) = true.
Proof.
  intros Hr. unfold reportable. simpl.
  assert (∀ col, col ∈ numeric_columns → finite (pd.fill 0%float (col r)) = true)
    as Hf by (intros col Hcol; apply fill_finite, Hr, Hcol).
  assert (total_cases ∈ numeric_columns ∧ total_deaths ∈ numeric_columns ∧
          total_vaccinations ∈ numeric_columns) as (Hc & Hd & Hv)
    by (unfold numeric_columns; rewrite !elem_of_cons; tauto).
  by rewrite (Hf _ Hc), (Hf _ Hd), (finite_not_plus_infinity _ (Hf _ Hv)).
Qed.

(** Every row of a frame cleaned from data without infinities can be
    reported: cleaning leaves no absent cell for [int] to meet. *)
Lemma cleaned_reportable (D : DataFrame) (r : Row) :
  Forall no_infinity D → r ∈ cleaned D → reportable r = true.
Proof.
  intros HD Hr. unfold cleaned, kept in Hr.
  apply list_elem_of_In, in_map_iff in Hr as (r0 & <- & Hr0).
  apply filter_In in Hr0 as [Hr0 _].
  apply fill_row_reportable. rewrite Forall_forall in HD.
  by apply HD, list_elem_of_In.
Qed.

(** The session cleans the loaded frame and reports from the cleaned one
    (covid-19.py, lines 113 and 126).  Emptyland, whose only row has both
    crucial cells absent, is then not found; Testland is reported from its
    last row. *)
Example session_emptyland :
  (df_cleaned ← clean_data 0%nat;
   display_country_stats df_cleaned "Emptyland") (loaded scenario)
  = (Ret tt,
     World [scenario; kept scenario; cleaned scenario; []; []]
           [NoData "Emptyland"]).
Proof. vm_compute. reflexivity. Qed.

Example session_testland :
  stdout ((df_cleaned ← clean_data 0%nat;
           display_country_stats df_cleaned "Testland") (loaded scenario)).2
  = [Header "Testland"; LastUpdated (18629 * day_ns);
     TotalCases 150; TotalDeaths 3; CaseFatalityRate (Fixed false 200)].
Proof. vm_compute. reflexivity. Qed.

(** * Cleaning and querying together *)

Section composition.

Implicit Types (w : world) (df : ref) (D : DataFrame) (r : Row).

Lemma fill_fill (x : float) : pd.fill 0%float (pd.fill 0%float x) = pd.fill 0%float x.
Proof.
  unfold pd.fill at 1. by rewrite (fill_present 0%float x isna_zero).
Qed.

Lemma fill_row_fill_row r :
  pd.fill_row 0%float (pd.fill_row 0%float r) = pd.fill_row 0%float r.
Proof. unfold pd.fill_row. simpl. by rewrite !fill_fill. Qed.

Lemma fill_row_present r : all_present r → pd.fill_row 0%float r = r.
Proof.
  intros Hr. destruct r as [l d tc td nc nd tv]. unfold pd.fill_row, pd.fill. simpl.
  assert (∀ col, col ∈ numeric_columns →
                 isna (col (mkRow l d tc td nc nd tv)) = false) as H by exact Hr.
  pose proof (H total_cases) as H1. pose proof (H total_deaths) as H2.
  pose proof (H new_cases) as H3. pose proof (H new_deaths) as H4.
  pose proof (H total_vaccinations) as H5. simpl in *.
  unfold numeric_columns in *.
  rewrite H1, H2, H3, H4, H5; [done|..]; rewrite !elem_of_cons; tauto.
Qed.

Lemma kept_present D : Forall (λ r, ¬ both_absent r) D → kept D = D.
Proof.
  intros HD. rewrite kept_filter. induction HD as [|r D Hr HD IH]; [done|].
  rewrite (filter_cons (λ r, ¬ both_absent r)), decide_True by done.
  f_equal. exact IH.
Qed.

Lemma all_present_not_both_absent r : all_present r → ¬ both_absent r.
Proof.
  intros Hr [Hc _]. rewrite (Hr total_cases) in Hc; [done|].
  unfold numeric_columns. rewrite !elem_of_cons. tauto.
Qed.

Lemma cleaned_all_present D : Forall all_present (cleaned D).
Proof.
  unfold cleaned. apply Forall_forall. intros x Hx.
  apply list_elem_of_In, in_map_iff in Hx as (x0 & <- & _).
  apply fill_row_all_present.
Qed.

Lemma cleaned_present D : Forall all_present D → cleaned D = D.
Proof.
  intros HD. unfold cleaned. rewrite kept_present.
  - induction HD as [|r D Hr HD IH]; [done|]. simpl.
    by rewrite fill_row_present, IH.
  - eapply Forall_impl; [exact HD|]. apply all_present_not_both_absent.
Qed.

Lemma cleaned_cleaned D : cleaned (cleaned D) = cleaned D.
Proof. apply cleaned_present, cleaned_all_present. Qed.

Lemma country_rows_map_fill D country :
  country_rows (map (pd.fill_row 0%float) D) country
  = map (pd.fill_row 0%float) (country_rows D country).
Proof.
  unfold country_rows. induction D as [|r D IH]; [done|].
  cbn [map pd.select]. cbn [pd.fill_row location]. rewrite IH.
  by destruct (String.eqb (location r) country).
Qed.

Lemma country_rows_kept D country :
  country_rows (kept D) country = kept (country_rows D country).
Proof.
  unfold country_rows, kept. induction D as [|r D IH]; [done|].
  cbn [map pd.select List.filter].
  destruct (negb (pd.all_na crucial_columns r)) eqn:Ek,
    (String.eqb (location r) country) eqn:El;
    cbn [map pd.select List.filter]; rewrite ?Ek, ?El, IH; done.
Qed.

Lemma country_rows_cleaned D country :
  country_rows (cleaned D) country = cleaned (country_rows D country).
Proof. unfold cleaned. by rewrite country_rows_map_fill, country_rows_kept. Qed.

Lemma country_rows_twice D c c' :
  country_rows (country_rows D c) c' = if decide (c = c') then country_rows D c else [].
Proof.
  unfold country_rows. induction D as [|r D IH]; [by case_decide|].
  cbn [map pd.select].
  destruct (String.eqb_spec (location r) c) as [Hr|Hr]; [|exact IH].
  cbn [map pd.select]. rewrite IH.
  destruct (String.eqb_spec (location r) c') as [Hr'|Hr']; case_decide; congruence.
Qed.

End composition.

Section frames_checked.

Implicit Types (D : DataFrame) (r : Row).

Lemma complete_all_present D : complete D = true → Forall all_present D.
Proof.
  unfold complete. rewrite forallb_forall, Forall_forall.
  intros H r Hr col Hcol.
  specialize (H r (proj1 (list_elem_of_In _ _) Hr)).
  rewrite forallb_forall in H.
  specialize (H col (proj1 (list_elem_of_In _ _) Hcol)).
  by apply negb_true_iff in H.
Qed.

Lemma no_infinities_no_infinity D : no_infinities D = true → Forall no_infinity D.
Proof.
  unfold no_infinities. rewrite forallb_forall, Forall_forall.
  intros H r Hr col Hcol s Hs.
  specialize (H r (proj1 (list_elem_of_In _ _) Hr)).
  rewrite forallb_forall in H.
  specialize (H col (proj1 (list_elem_of_In _ _) Hcol)).
  apply negb_true_iff in H. unfold infinite in H. by rewrite Hs in H.
Qed.

Lemma finite_present (x : float) : finite x = true → isna x = false.
Proof.
  intros Hx. destruct (isna x) eqn:E; [|done].
  apply isna_decode in E. unfold finite in Hx. by rewrite E in Hx.
Qed.

Lemma fill_id_present (x : float) : isna x = false → pd.fill 0%float x = x.
Proof. intros E. unfold pd.fill. by rewrite E. Qed.

Lemma py_int_value_error (x : float) : py_int x = inr ValueError → isna x = true.
Proof.
  intros H. apply isna_decode. unfold py_int in H.
  by destruct (decode x).
Qed.

Lemma country_rows_without D c c' :
  c ≠ c' →
  country_rows (filter (λ x, location x ≠ c) D) c' = country_rows D c'.
Proof.
  intros Hne. induction D as [|r D IH]; [done|].
  rewrite (filter_cons (λ x, location x ≠ c)).
  destruct (decide (location r ≠ c)) as [Hr|Hr].
  - unfold country_rows in *. cbn [map pd.select].
    destruct (String.eqb (location r) c'); [f_equal|]; exact IH.
  - unfold country_rows at 2. cbn [map pd.select].
    destruct (String.eqb_spec (location r) c') as [Hr'|Hr'].
    + destruct Hr. congruence.
    + exact IH.
Qed.

(** The slices of the distinct locations, one after the other, hold every
    row once. *)
Lemma country_rows_partition D (L : list string) :
  NoDup L → (∀ r, r ∈ D → location r ∈ L) →
  concat (map (country_rows D) L) ≡ₚ D.
Proof.
  intros HL. revert D. induction HL as [|c L Hc HL IH]; intros D Hcover.
  - destruct D as [|r D]; [done|].
    specialize (Hcover r ltac:(left)). by apply elem_of_nil in Hcover.
  - cbn [map concat]. rewrite country_rows_filter.
    rewrite <- (filter_app_complement (λ x, location x = c) D) at 3.
    apply Permutation_app; [done|].
    assert (map (country_rows D) L
            = map (country_rows (filter (λ x, location x ≠ c) D)) L) as ->.
    { apply map_ext_in. intros c' Hc'.
      symmetry. apply country_rows_without. intros ->.
      by apply Hc, list_elem_of_In. }
    apply IH.
    intros r Hr. apply list_elem_of_filter in Hr as [Hne Hr].
    specialize (Hcover r Hr). apply elem_of_cons in Hcover as [?|?]; done.
Qed.

End frames_checked.

(** X1. Cleaning is idempotent: cleaning the frame that [clean_data]
    returned gives a frame with the same rows. *)
Theorem clean_data_idempotent (w : world) (df : ref) (D : DataFrame) :
  frames w !! df = Some D →
  ∃ r1 w1 r2 w2 D1,
    clean_data df w = (Ret r1, w1) ∧ frames w1 !! r1 = Some D1 ∧
    clean_data r1 w1 = (Ret r2, w2) ∧ frames w2 !! r2 = Some D1.
Proof.
  intros H. eexists _, _, _, _, (cleaned D).
  split; [by apply clean_data_run|].
  split; [apply allocated_second|].
  split; [apply clean_data_run, allocated_second|].
  rewrite allocated_second. by rewrite cleaned_cleaned.
Qed.

Lemma clean_data_idempotent_witness :
  frames (loaded scenario) !! 0%nat = Some scenario ∧
  ∃ r1 w1 r2 w2 D1,
    clean_data 0%nat (loaded scenario) = (Ret r1, w1) ∧ frames w1 !! r1 = Some D1 ∧
    clean_data r1 w1 = (Ret r2, w2) ∧ frames w2 !! r2 = Some D1.
Proof.
  split; [reflexivity|].
  apply (clean_data_idempotent (loaded scenario) 0%nat scenario). reflexivity.
Defined.

(** X2. A frame in which no cell is absent is returned by cleaning with
    the same rows in the same order; in particular an empty frame gives an
    empty frame. *)
Theorem clean_data_complete_unchanged (w : world) (df : ref) (D : DataFrame) :
  frames w !! df = Some D →
  complete D = true →
  ∃ r w', clean_data df w = (Ret r, w') ∧ frames w' !! r = Some D.
Proof.
  intros H HD. eexists _, _. split; [by apply clean_data_run|].
  rewrite allocated_second. by rewrite cleaned_present by by apply complete_all_present.
Qed.

Lemma clean_data_complete_unchanged_witness :
  frames (loaded full_rows) !! 0%nat = Some full_rows ∧
  complete full_rows = true ∧
  ∃ r w', clean_data 0%nat (loaded full_rows) = (Ret r, w') ∧
          frames w' !! r = Some full_rows.
Proof.
  split; [reflexivity|]. split; [reflexivity|].
  apply (clean_data_complete_unchanged (loaded full_rows) 0%nat full_rows);
    reflexivity.
Defined.

(** X3. Cleaning and querying commute: the slice of a country taken from
    the cleaned frame has the same rows as the cleaned slice of the country
    taken from the frame itself. *)
Theorem clean_data_get_country_data_commute
    (w : world) (df : ref) (D : DataFrame) (country : string) :
  frames w !! df = Some D →
  ∃ r1 w1 r2 w2 S,
    (x ← clean_data df; get_country_data x country) w = (Ret r1, w1) ∧
    (x ← get_country_data df country; clean_data x) w = (Ret r2, w2) ∧
    frames w1 !! r1 = Some S ∧ frames w2 !! r2 = Some S.
Proof.
  intros H. eexists _, _, _, _, (cleaned (country_rows D country)).
  split.
  { rewrite (bind_ret _ _ _ _ _ (clean_data_run _ _ _ H)).
    apply get_country_data_run, allocated_second. }
  split.
  { rewrite (bind_ret _ _ _ _ _ (get_country_data_run _ _ _ country H)).
    apply clean_data_run, allocated_second. }
  split; [|apply allocated_second].
  rewrite allocated_second. by rewrite country_rows_cleaned.
Qed.

Lemma clean_data_get_country_data_commute_witness :
  frames (loaded scenario) !! 0%nat = Some scenario ∧
  ∃ r1 w1 r2 w2 S,
    (x ← clean_data 0%nat; get_country_data x "Testland") (loaded scenario)
      = (Ret r1, w1) ∧
    (x ← get_country_data 0%nat "Testland"; clean_data x) (loaded scenario)
      = (Ret r2, w2) ∧
    frames w1 !! r1 = Some S ∧ frames w2 !! r2 = Some S.
Proof.
  split; [reflexivity|].
  apply (clean_data_get_country_data_commute (loaded scenario) 0%nat scenario
           "Testland"). reflexivity.
Defined.

(** X4. [get_country_data] returns a copy: its result is another object
    than the frame queried, that frame and every other one keep their rows,
    and nothing is printed. *)
Theorem get_country_data_preserves_input
    (w : world) (df : ref) (D : DataFrame) (country : string) :
  frames w !! df = Some D →
  ∃ r w',
    get_country_data df country w = (Ret r, w') ∧
    r ≠ df ∧
    frames w' !! df = Some D ∧
    (∀ k d, frames w !! k = Some d → frames w' !! k = Some d) ∧
    stdout w' = stdout w.
Proof.
  intros H. eexists _, _.
  split; [by apply get_country_data_run|].
  split; [apply lookup_lt_Some in H; lia|].
  split; [by apply allocated_live|].
  split; [|done].
  intros k d Hk. by apply allocated_live.
Qed.

Lemma get_country_data_preserves_input_witness :
  frames (loaded scenario) !! 0%nat = Some scenario ∧
  ∃ r w',
    get_country_data 0%nat "Testland" (loaded scenario) = (Ret r, w') ∧
    r ≠ 0%nat ∧
    frames w' !! 0%nat = Some scenario ∧
    (∀ k d, frames (loaded scenario) !! k = Some d → frames w' !! k = Some d) ∧
    stdout w' = stdout (loaded scenario).
Proof.
  split; [reflexivity|].
  apply (get_country_data_preserves_input (loaded scenario) 0%nat scenario
           "Testland"). reflexivity.
Defined.

(** X5. Querying a slice again: for the same country the slice comes back
    with the same rows, for any other name the result is empty. *)
Theorem get_country_data_again
    (w : world) (df : ref) (D : DataFrame) (c c' : string) :
  frames w !! df = Some D →
  ∃ r1 w1 S r2 w2,
    get_country_data df c w = (Ret r1, w1) ∧ frames w1 !! r1 = Some S ∧
    get_country_data r1 c' w1 = (Ret r2, w2) ∧
    frames w2 !! r2 = Some (if decide (c = c') then S else []).
Proof.
  intros H. eexists _, _, (country_rows D c), _, _.
  split; [by apply get_country_data_run|].
  split; [apply allocated_second|].
  split; [apply get_country_data_run, allocated_second|].
  rewrite allocated_second. by rewrite country_rows_twice.
Qed.

Lemma get_country_data_again_witness :
  frames (loaded scenario) !! 0%nat = Some scenario ∧
  ∃ r1 w1 S r2 w2,
    get_country_data 0%nat "Testland" (loaded scenario) = (Ret r1, w1) ∧
    frames w1 !! r1 = Some S ∧
    get_country_data r1 "Emptyland" w1 = (Ret r2, w2) ∧
    frames w2 !! r2 = Some (if decide ("Testland" = "Emptyland") then S else []).
Proof.
  split; [reflexivity|].
  apply (get_country_data_again (loaded scenario) 0%nat scenario
           "Testland" "Emptyland"). reflexivity.
Defined.

(** X6. The slices of the listed countries partition the frame: taken one
    after the other in the order of the list, they hold every row of the
    frame exactly once, so their lengths add up to the length of the
    frame. *)
Theorem country_slices_partition (w : world) (df : ref) (D : DataFrame) :
  frames w !! df = Some D →
  ∃ L,
    get_available_countries df w = (Ret L, w) ∧
    (∀ c, ∃ r w', get_country_data df c w = (Ret r, w') ∧
                  frames w' !! r = Some (country_rows D c)) ∧
    concat (map (country_rows D) L) ≡ₚ D ∧
    length (concat (map (country_rows D) L)) = length D.
Proof.
  intros H. eexists. split; [by apply get_available_countries_run|].
  split.
  { intros c. eexists _, _. split; [by apply get_country_data_run|].
    apply allocated_second. }
  assert (concat (map (country_rows D) (sorted (pd.unique_from [] (map location D))))
          ≡ₚ D) as Hp.
  { apply country_rows_partition.
    - rewrite sorted_Permutation. apply unique_from_NoDup.
    - intros r Hr. apply sorted_unique_elem_of, list_elem_of_In, in_map.
      by apply list_elem_of_In. }
  split; [exact Hp|]. by rewrite Hp.
Qed.

Lemma country_slices_partition_witness :
  frames (loaded scenario) !! 0%nat = Some scenario ∧
  ∃ L,
    get_available_countries 0%nat (loaded scenario) = (Ret L, loaded scenario) ∧
    (∀ c, ∃ r w', get_country_data 0%nat c (loaded scenario) = (Ret r, w') ∧
                  frames w' !! r = Some (country_rows scenario c)) ∧
    concat (map (country_rows scenario) L) ≡ₚ scenario ∧
    length (concat (map (country_rows scenario) L)) = length scenario.
Proof.
  split; [reflexivity|].
  apply (country_slices_partition (loaded scenario) 0%nat scenario). reflexivity.
Defined.

Section listing_and_report.

Implicit Types (w : world) (df : ref) (D : DataFrame) (r : Row).

Lemma location_contains_run w df D country :
  frames w !! df = Some D →
  location_contains df country w
    = (Ret (bool_decide (country ∈ map location D)), w).
Proof.
  intros H. unfold location_contains.
  by rewrite (bind_ret _ _ _ _ _ (read_live _ _ _ H)).
Qed.

Lemma country_rows_nonempty D country :
  country_rows D country ≠ [] ↔ country ∈ map location D.
Proof.
  rewrite country_rows_filter, list_elem_of_In, in_map_iff. split.
  - destruct (filter (λ x, location x = country) D) as [|x S0] eqn:E; [done|].
    intros _. assert (x ∈ filter (λ x, location x = country) D) as Hx
      by (rewrite E; left).
    apply list_elem_of_filter in Hx as [Hl Hx].
    exists x. split; [done|]. by apply list_elem_of_In.
  - intros (x & Hl & Hx) E.
    assert (x ∈ filter (λ x, location x = country) D) as Hin
      by (apply list_elem_of_filter; split; [done|by apply list_elem_of_In]).
    rewrite E in Hin. by apply elem_of_nil in Hin.
Qed.

Lemma cleaned_locations D s :
  s ∈ map location (cleaned D) ↔ ∃ x, x ∈ D ∧ location x = s ∧ ¬ both_absent x.
Proof.
  unfold cleaned. rewrite kept_filter, list_elem_of_In, in_map_iff. split.
  - intros (y & Hy & Hin). apply in_map_iff in Hin as (x & <- & Hx).
    apply list_elem_of_In, list_elem_of_filter in Hx as [Hp Hx].
    exists x. done.
  - intros (x & Hx & Hl & Hp). exists (pd.fill_row 0%float x). split; [done|].
    apply in_map, list_elem_of_In, list_elem_of_filter. done.
Qed.

(** On a row without absent cells the report ends normally or on an
    infinite value. *)
Lemma print_stats_present country r w :
  all_present r →
  (print_stats country r w).1 = Ret tt ∨
  (print_stats country r w).1 = Raise OverflowError.
Proof.
  intros Hr.
  assert (∀ col e, col ∈ numeric_columns → py_int (col r) = inr e →
                   e = OverflowError) as Hov.
  { intros col e Hcol He. destruct (py_int_raises _ _ He) as [-> | ->]; [|done].
    apply py_int_value_error in He. by rewrite (Hr col Hcol) in He. }
  assert (total_cases ∈ numeric_columns ∧ total_deaths ∈ numeric_columns ∧
          total_vaccinations ∈ numeric_columns) as (Hc & Hd & Hv)
    by (unfold numeric_columns; rewrite !elem_of_cons; tauto).
  unfold print_stats.
  unfold mbind, M_bind, lift, mret, M_ret, raise, print; simpl.
  destruct (py_int (total_cases r)) as [a|e] eqn:Ea; simpl;
    [|rewrite (Hov _ _ Hc Ea); tauto].
  destruct (py_int (total_deaths r)) as [b|e] eqn:Eb; simpl;
    [|rewrite (Hov _ _ Hd Eb); tauto].
  destruct (gt0 (total_vaccinations r)); simpl.
  - destruct (py_int (total_vaccinations r)) as [v|e] eqn:Ev; simpl;
      [|rewrite (Hov _ _ Hv Ev); tauto].
    destruct (gt0 (total_cases r)); simpl; tauto.
  - destruct (gt0 (total_cases r)); simpl; tauto.
Qed.

Lemma display_country_stats_present w df D country :
  frames w !! df = Some D →
  Forall all_present D →
  (display_country_stats df country w).1 = Ret tt ∨
  (display_country_stats df country w).1 = Raise OverflowError.
Proof.
  intros H HD. rewrite (display_country_stats_run _ _ _ _ H). cbv zeta.
  destruct (last (country_rows D country)) as [r|] eqn:El; [|by left].
  apply print_stats_present.
  apply last_Some_elem_of in El. rewrite country_rows_filter in El.
  apply list_elem_of_filter in El as [_ El].
  rewrite Forall_forall in HD. by apply HD.
Qed.

Lemma display_country_stats_reportable_rows w df D country :
  frames w !! df = Some D →
  (∀ r, r ∈ D → reportable r = true) →
  (display_country_stats df country w).1 = Ret tt.
Proof.
  intros H HD. rewrite (display_country_stats_run _ _ _ _ H). cbv zeta.
  destruct (last (country_rows D country)) as [r|] eqn:El; [|done].
  apply last_Some_elem_of in El. rewrite country_rows_filter in El.
  apply list_elem_of_filter in El as [_ El].
  destruct (print_stats_reportable country r
              (allocated w [country_rows D country; country_rows D country])
              (HD r El)) as (a & b & _ & _ & ->).
  done.
Qed.

End listing_and_report.

(** X7. A country is in the list of available countries exactly when the
    membership test of the session finds it, and exactly when its slice has
    a row. *)
Theorem listed_iff_slice_nonempty (w : world) (df : ref) (D : DataFrame) :
  frames w !! df = Some D →
  ∃ L,
    get_available_countries df w = (Ret L, w) ∧
    ∀ c, location_contains df c w = (Ret (bool_decide (c ∈ L)), w) ∧
         (c ∈ L ↔ country_rows D c ≠ []).
Proof.
  intros H. eexists. split; [by apply get_available_countries_run|].
  intros c. split.
  - rewrite (location_contains_run _ _ _ _ H). do 2 f_equal.
    apply bool_decide_ext. by rewrite sorted_unique_elem_of.
  - by rewrite sorted_unique_elem_of, country_rows_nonempty.
Qed.

Lemma listed_iff_slice_nonempty_witness :
  frames (loaded scenario) !! 0%nat = Some scenario ∧
  ∃ L,
    get_available_countries 0%nat (loaded scenario) = (Ret L, loaded scenario) ∧
    ∀ c, location_contains 0%nat c (loaded scenario)
           = (Ret (bool_decide (c ∈ L)), loaded scenario) ∧
         (c ∈ L ↔ country_rows scenario c ≠ []).
Proof.
  split; [reflexivity|].
  apply (listed_iff_slice_nonempty (loaded scenario) 0%nat scenario). reflexivity.
Defined.

(** X8. The countries listed from the cleaned frame are the locations that
    have a row with [total_cases] or [total_deaths] present; each of them is
    also listed from the frame as loaded. *)
Theorem cleaned_listing (w : world) (df : ref) (D : DataFrame) :
  frames w !! df = Some D →
  ∃ L L' w',
    get_available_countries df w = (Ret L, w) ∧
    (x ← clean_data df; get_available_countries x) w = (Ret L', w') ∧
    (∀ s, s ∈ L' ↔ ∃ x, x ∈ D ∧ location x = s ∧ ¬ both_absent x) ∧
    (∀ s, s ∈ L' → s ∈ L).
Proof.
  intros H. eexists _, _, _.
  split; [by apply get_available_countries_run|].
  split.
  { rewrite (bind_ret _ _ _ _ _ (clean_data_run _ _ _ H)).
    apply get_available_countries_run, allocated_second. }
  split.
  - intros s. by rewrite sorted_unique_elem_of, cleaned_locations.
  - intros s. rewrite !sorted_unique_elem_of, cleaned_locations.
    intros (x & Hx & <- & _). apply list_elem_of_In, in_map.
    by apply list_elem_of_In.
Qed.

Lemma cleaned_listing_witness :
  frames (loaded scenario) !! 0%nat = Some scenario ∧
  ∃ L L' w',
    get_available_countries 0%nat (loaded scenario) = (Ret L, loaded scenario) ∧
    (x ← clean_data 0%nat; get_available_countries x) (loaded scenario)
      = (Ret L', w') ∧
    (∀ s, s ∈ L' ↔ ∃ x, x ∈ scenario ∧ location x = s ∧ ¬ both_absent x) ∧
    (∀ s, s ∈ L' → s ∈ L).
Proof.
  split; [reflexivity|].
  apply (cleaned_listing (loaded scenario) 0%nat scenario). reflexivity.
Defined.



(** X10. An absent [total_cases] is reported as zero: when the last row of
    the country that cleaning keeps has [total_cases] absent (with a finite
    [total_deaths] and vaccinations other than plus infinity), the report
    from the cleaned frame ends normally, shows 0 total cases and has no
    fatality-rate line. *)
Theorem display_after_clean_absent_cases
    (w : world) (df : ref) (D : DataFrame) (country : string) (r : Row) :
  frames w !! df = Some D →
  last (country_rows (kept D) country) = Some r →
  isna (total_cases r) = true →
  finite (total_deaths r) = true →
  plus_infinity (total_vaccinations r) = false →
  ∃ w' out,
    (x ← clean_data df; display_country_stats x country) w = (Ret tt, w') ∧
    stdout w' = stdout w ++ out ∧
    TotalCases 0 ∈ out ∧
    ∀ x, CaseFatalityRate x ∉ out.
Proof.
  intros H Hl Hc Hd Hv.
  rewrite (bind_ret _ _ _ _ _ (clean_data_run _ _ _ H)).
  pose proof (allocated_second w (kept D) (cleaned D)) as Hlive.
  assert (last (country_rows (cleaned D) country) = Some (pd.fill_row 0%float r))
    as Hl'.
  { unfold cleaned. rewrite country_rows_map_fill.
    apply last_Some in Hl as [S0 ->]. rewrite map_app. apply last_snoc. }
  assert (total_cases (pd.fill_row 0%float r) = 0%float) as Hz
    by (simpl; unfold pd.fill; by rewrite Hc).
  assert (reportable (pd.fill_row 0%float r) = true) as Hr.
  { unfold reportable. rewrite Hz. simpl.
    rewrite (fill_id_present _ (finite_present _ Hd)), Hd. simpl.
    unfold pd.fill. destruct (isna (total_vaccinations r)); [done|].
    by rewrite Hv. }
  destruct (display_country_stats_reportable _ _ _ country _ Hlive Hl' Hr)
    as (a & b & Ha & _ & ->).
  rewrite Hz in Ha. injection Ha as <-.
  eexists _, _. split; [done|]. split; [done|]. split.
  - by apply report_lines_cases.
  - intros x Hx. apply report_lines_rate in Hx as [Hg _].
    by rewrite Hz in Hg.
Qed.

Lemma display_after_clean_absent_cases_witness :
  frames (loaded cases_unreported) !! 0%nat = Some cases_unreported ∧
  last (country_rows (kept cases_unreported) "Testland")
    = Some (mkRow "Testland" (18630 * day_ns) nan 4 nan nan nan) ∧
  ∃ w' out,
    (x ← clean_data 0%nat; display_country_stats x "Testland")
      (loaded cases_unreported) = (Ret tt, w') ∧
    stdout w' = stdout (loaded cases_unreported) ++ out ∧
    TotalCases 0 ∈ out ∧
    ∀ x, CaseFatalityRate x ∉ out.
Proof.
  split; [reflexivity|]. split; [reflexivity|].
  apply (display_after_clean_absent_cases (loaded cases_unreported) 0%nat
           cases_unreported "Testland"
           (mkRow "Testland" (18630 * day_ns) nan 4 nan nan nan));
    reflexivity.
Defined.

(** * The session *)

Section session_steps.

Implicit Types (t : terminal) (df : ref) (D : DataFrame) (r : Row).

Lemma io_bind_done {A B} (m : IO A) (k : A → IO B) t a t' :
  m t = (Done a, t') → (m ≫= k) t = k a t'.
Proof. intros H. unfold mbind, IO_bind. by rewrite H. Qed.

Lemma io_bind_failed {A B} (m : IO A) (k : A → IO B) t f t' :
  m t = (Failed f, t') → (m ≫= k) t = (Failed f, t').
Proof. intros H. unfold mbind, IO_bind. by rewrite H. Qed.

Lemma liftM_ret {A} (m : M A) t a w' :
  m (World (objects t) []) = (Ret a, w') →
  liftM m t = (Done a, Terminal (frames w') (screen t ++ map Stat (stdout w')) (canvas t)).
Proof. intros H. unfold liftM. by rewrite H. Qed.

Lemma liftM_raise {A} (m : M A) t e w' :
  m (World (objects t) []) = (Raise e, w') →
  liftM m t = (Failed (Py e),
               Terminal (frames w') (screen t ++ map Stat (stdout w')) (canvas t)).
Proof. intros H. unfold liftM. by rewrite H. Qed.

Lemma typed_nil t : typed t [] = t.
Proof. destruct t. unfold typed. simpl. by rewrite app_nil_r. Qed.

Lemma advanced_nil t : advanced t [] [] [] = t.
Proof. destruct t. unfold advanced. simpl. by rewrite !app_nil_r. Qed.

Lemma advanced_advanced t fs1 ls1 cs1 fs2 ls2 cs2 :
  advanced (advanced t fs1 ls1 cs1) fs2 ls2 cs2
  = advanced t (fs1 ++ fs2) (ls1 ++ ls2) (cs1 ++ cs2).
Proof. unfold advanced. simpl. by rewrite !app_assoc. Qed.

Lemma typed_advanced t ls : typed t ls = advanced t [] ls [].
Proof. unfold typed, advanced. by rewrite !app_nil_r. Qed.

#[global] Instance follows_refl : Reflexive follows.
Proof.
  intros t. exists [], [], []. split; [by rewrite advanced_nil|].
  intros c Hc. by apply elem_of_nil in Hc.
Qed.

#[global] Instance follows_trans : Transitive follows.
Proof.
  intros t1 t2 t3 (fs1 & ls1 & cs1 & -> & H1) (fs2 & ls2 & cs2 & -> & H2).
  exists (fs1 ++ fs2), (ls1 ++ ls2), (cs1 ++ cs2).
  split; [apply advanced_advanced|].
  intros c Hc. apply elem_of_app in Hc as [Hc|Hc]; [by apply (H1 c)|by apply (H2 c)].
Qed.

Lemma follows_live t t' df D :
  follows t t' → objects t !! df = Some D → objects t' !! df = Some D.
Proof. intros (fs & ls & cs & -> & _) H. simpl. by apply lookup_app_l_Some. Qed.

Lemma follows_typed t ls :
  (∀ c, Stat (NoData c) ∉ ls) → follows t (typed t ls).
Proof. intros H. exists [], ls, []. split; [apply typed_advanced|done]. Qed.

Lemma texts_quiet (ls : list text) :
  Forall (λ x, match x with Stat (NoData _) => False | _ => True end) ls →
  ∀ c, Stat (NoData c) ∉ ls.
Proof.
  intros H c Hc. rewrite Forall_forall in H. by apply (H _ Hc).
Qed.

Lemma menu_lines_quiet c : Stat (NoData c) ∉ menu_lines.
Proof. apply texts_quiet. unfold menu_lines. repeat constructor. Qed.

Lemma numbered_quiet start L c : Stat (NoData c) ∉ numbered start L.
Proof.
  unfold numbered. intros H. apply elem_of_lookup_imap in H as (i & x & Hx & _).
  done.
Qed.

Lemma print_numbered_run start L t :
  print_numbered start L t = (Done tt, typed t (numbered start L)).
Proof.
  revert start t. induction L as [|c L IH]; intros start t.
  - simpl. by rewrite typed_nil.
  - cbn [print_numbered]. unfold mbind, IO_bind, say. cbn beta iota.
    rewrite IH. unfold typed, numbered. simpl.
    rewrite <- app_assoc. simpl. rewrite Nat.add_0_r. do 4 f_equal.
    apply imap_ext. intros i x _. simpl. by rewrite Nat.add_succ_r.
Qed.

End session_steps.

Section session_views.

Implicit Types (t : terminal) (w : world) (df : ref) (D : DataFrame) (r : Row).

Lemma liftM_outcome {A} (m : M A) t :
  (liftM m t).1 = match (m (World (objects t) [])).1 with
                  | Ret a => Done a
                  | Raise e => Failed (Py e)
                  end.
Proof. unfold liftM. by destruct (m (World (objects t) [])). Qed.

Lemma liftM_terminal {A} (m : M A) t :
  (liftM m t).2
  = Terminal (frames (m (World (objects t) [])).2)
             (screen t ++ map Stat (stdout (m (World (objects t) [])).2))
             (canvas t).
Proof. unfold liftM. by destruct (m (World (objects t) [])). Qed.

Lemma liftM_pure {A} (m : M A) t a :
  m (World (objects t) []) = (Ret a, World (objects t) []) →
  liftM m t = (Done a, t).
Proof.
  intros H. unfold liftM. rewrite H. simpl. rewrite app_nil_r. by destruct t.
Qed.

(** The report writes no no-data line. *)
Lemma print_stats_quiet country r w :
  ∃ out, (print_stats country r w).2 = printed w out ∧ ∀ c, NoData c ∉ out.
Proof.
  assert (∀ ls : list line,
            Forall (λ x, match x with NoData _ => False | _ => True end) ls →
            ∀ c, NoData c ∉ ls) as Hq.
  { intros ls H c Hc. rewrite Forall_forall in H. by apply (H _ Hc). }
  unfold print_stats, printed.
  unfold mbind, M_bind, lift, mret, M_ret, raise, print; simpl.
  destruct (py_int (total_cases r)) as [a|e]; simpl.
  2: { eexists [_; _]. rewrite <- app_assoc. split; [done|].
       apply Hq. repeat constructor. }
  destruct (py_int (total_deaths r)) as [b|e]; simpl.
  2: { eexists [_; _; _]. rewrite <- !app_assoc. split; [done|].
       apply Hq. repeat constructor. }
  destruct (gt0 (total_vaccinations r)); simpl.
  - destruct (py_int (total_vaccinations r)) as [v|e]; simpl.
    2: { eexists [_; _; _; _]. rewrite <- !app_assoc. split; [done|].
         apply Hq. repeat constructor. }
    destruct (gt0 (total_cases r)); simpl.
    + eexists [_; _; _; _; _; _]. rewrite <- !app_assoc. split; [done|].
      apply Hq. repeat constructor.
    + eexists [_; _; _; _; _]. rewrite <- !app_assoc. split; [done|].
      apply Hq. repeat constructor.
  - destruct (gt0 (total_cases r)); simpl.
    + eexists [_; _; _; _; _]. rewrite <- !app_assoc. split; [done|].
      apply Hq. repeat constructor.
    + eexists [_; _; _; _]. rewrite <- !app_assoc. split; [done|].
      apply Hq. repeat constructor.
Qed.

(** What a report of a country with rows leaves behind, however it ends. *)
Lemma display_country_stats_effects w df D country :
  frames w !! df = Some D →
  country_rows D country ≠ [] →
  ∃ out,
    (display_country_stats df country w).2
      = World (frames w ++ [country_rows D country; country_rows D country])
              (stdout w ++ out) ∧
    ∀ c, NoData c ∉ out.
Proof.
  intros H Hne. rewrite (display_country_stats_run _ _ _ _ H). cbv zeta.
  destruct (last (country_rows D country)) as [r|] eqn:El;
    [|by apply last_None in El].
  destruct (print_stats_quiet country r
              (allocated w [country_rows D country; country_rows D country]))
    as (out & -> & Hq).
  by exists out.
Qed.

Lemma draw_then {A} (c : call) (k : IO A) t :
  (draw c;; k) t = k (Terminal (objects t) (screen t) (canvas t ++ [c])).
Proof. reflexivity. Qed.

Lemma plot_covid_trends_run t df D country :
  objects t !! df = Some D →
  plot_covid_trends df country t
  = (Done tt,
     match country_rows D country with
     | [] => advanced t [[]; []] [Stat (NoData country)] []
     | _ :: _ =>
         advanced t [country_rows D country; country_rows D country] []
           (chart country (country_rows D country))
     end).
Proof.
  intros H. unfold plot_covid_trends.
  assert (frames (World (objects t) []) !! df = Some D) as Hw by done.
  rewrite (io_bind_done _ _ _ _ _
             (liftM_ret _ _ _ _ (get_country_data_run _ _ _ country Hw))).
  set (t1 := Terminal _ _ _).
  assert (frames (World (objects t1) []) !! S (length (objects t))
          = Some (country_rows D country)) as Hs
    by apply (allocated_second (World (objects t) [])).
  rewrite (io_bind_done _ _ _ _ _ (liftM_pure _ _ _ (len_run _ _ _ Hs))).
  destruct (country_rows D country) as [|x S0] eqn:E.
  - simpl. unfold liftM, print, advanced. simpl. by rewrite !app_nil_r.
  - cbn [length Nat.eqb].
    rewrite (io_bind_done _ _ _ _ _ (liftM_pure _ _ _ (read_live _ _ _ Hs))).
    unfold t1.
    repeat (rewrite draw_then; cbn [objects screen canvas]).
    unfold draw. cbn [objects screen canvas].
    unfold advanced, chart. cbn [objects screen canvas frames stdout allocated].
    rewrite <- !app_assoc. cbn [app map].
    by rewrite !app_nil_r.
Qed.
End session_views.

Section menu_turns.

Implicit Types (t : terminal) (df : ref) (D : DataFrame) (stdin : list string).

Lemma say_then {A} (s : string) (k : IO A) t :
  (say s;; k) t = k (typed t [Text s]).
Proof. reflexivity. Qed.

Lemma ask_then {A} (s : string) (k : IO A) t :
  (ask s;; k) t = k (typed t [Prompt s]).
Proof. reflexivity. Qed.

Lemma io_bind_ext {A B} (m : IO A) (k1 k2 : A → IO B) t :
  (∀ a t', k1 a t' = k2 a t') → (m ≫= k1) t = (m ≫= k2) t.
Proof.
  intros H. unfold mbind, IO_bind. destruct (m t) as [[a|f] t']; [apply H|done].
Qed.

Lemma say_run (s : string) t : say s t = (Done tt, typed t [Text s]).
Proof. reflexivity. Qed.

Lemma typed_typed t ls1 ls2 : typed (typed t ls1) ls2 = typed t (ls1 ++ ls2).
Proof. unfold typed. simpl. by rewrite app_assoc. Qed.

Lemma menu_loop_turn df stdin t :
  menu_loop df stdin t
  = match stdin with
    | [] => (Failed EOFError, typed t menu_lines)
    | choice :: stdin =>
        if String.eqb choice "1" then
          match stdin with
          | [] => (Failed EOFError, typed t (menu_lines ++ [country_prompt]))
          | country :: stdin =>
              (known ← liftM (location_contains df country);
               (if known : bool then
                  liftM (display_country_stats df country);;
                  plot_covid_trends df country
                else λ t, (Done tt, typed t [not_found country]));;
               menu_loop df stdin) (typed t (menu_lines ++ [country_prompt]))
          end
        else if String.eqb choice "2" then
          (countries ← liftM (get_available_countries df);
           (λ t, (Done tt,
                  typed t (Text (nl +:+ "Available countries:")
                           :: numbered 1 countries)));;
           menu_loop df stdin) (typed t menu_lines)
        else if String.eqb choice "3" then (Done tt, typed t (menu_lines ++ [goodbye]))
        else menu_loop df stdin (typed t (menu_lines ++ [invalid_choice]))
    end.
Proof.
  assert (∀ {A} (k : IO A),
            (say (nl +:+ "=== COVID-19 Data Tracker ===");;
             say "1. View data for a specific country";;
             say "2. List available countries";;
             say "3. Exit";;
             ask (nl +:+ "Enter your choice (1-3): ");; k) t
            = k (typed t menu_lines)) as Hm.
  { intros A k. rewrite !say_then, ask_then, !typed_typed. done. }
  destruct stdin as [|choice stdin]; cbn [menu_loop]; rewrite Hm; [reflexivity|].
  destruct (String.eqb choice "1").
  - rewrite ask_then, typed_typed. fold country_prompt.
    destruct stdin as [|country stdin]; reflexivity.
  - destruct (String.eqb choice "2").
    + apply io_bind_ext. intros L t1.
      rewrite say_then.
      rewrite (io_bind_done _ _ _ _ _ (print_numbered_run _ _ _)), typed_typed.
      reflexivity.
    + destruct (String.eqb choice "3").
      * rewrite say_run, typed_typed. reflexivity.
      * rewrite say_then, typed_typed. reflexivity.
Qed.

End menu_turns.

Section menu_invariant.

Implicit Types (t : terminal) (df : ref) (D : DataFrame) (stdin : list string).

Lemma stat_quiet (out : list line) :
  (∀ c, NoData c ∉ out) → ∀ c, Stat (NoData c) ∉ map Stat out.
Proof.
  intros H c Hc. apply list_elem_of_In, in_map_iff in Hc as (l & [= ->] & Hl).
  by apply (H c), list_elem_of_In.
Qed.

(** Viewing a country that has rows in a frame without absent cells. *)
Lemma view_known_step t df D country :
  objects t !! df = Some D →
  Forall all_present D →
  country_rows D country ≠ [] →
  ∃ o t',
    (liftM (display_country_stats df country);; plot_covid_trends df country) t
      = (o, t') ∧
    follows t t' ∧
    (o = Done tt ∨ o = Failed (Py OverflowError)) ∧
    ((∀ r, r ∈ D → reportable r = true) → o = Done tt).
Proof.
  intros H HD Hne.
  assert (frames (World (objects t) []) !! df = Some D) as Hw by done.
  destruct (display_country_stats_effects _ _ _ country Hw Hne) as (out & E2 & Hq).
  pose proof (display_country_stats_present _ _ _ country Hw HD) as Ho.
  pose proof (display_country_stats_reportable_rows _ _ _ country Hw) as Hrep.
  pose proof (liftM_outcome (display_country_stats df country) t) as L1.
  pose proof (liftM_terminal (display_country_stats df country) t) as L2.
  rewrite E2 in L2. cbn [frames stdout app] in L2.
  destruct (liftM (display_country_stats df country) t) as [o1 t1] eqn:E.
  simpl in L1, L2. subst t1.
  set (S0 := country_rows D country) in *.
  set (t1 := Terminal (objects t ++ [S0; S0]) (screen t ++ map Stat out) (canvas t)) in *.
  assert (follows t t1) as F1.
  { exists [S0; S0], (map Stat out), []. split; [|by apply stat_quiet].
    unfold advanced, t1. by rewrite app_nil_r. }
  destruct Ho as [Ho|Ho]; rewrite Ho in L1; subst o1.
  - assert (objects t1 !! df = Some D) as H1 by (by apply (follows_live t)).
    pose proof (plot_covid_trends_run t1 df D country H1) as Hp.
    fold S0 in Hp. destruct S0 as [|x S1] eqn:ES; [done|].
    eexists _, _. split.
    { unfold mbind, IO_bind. rewrite E. exact Hp. }
    split; [|split; [by left|done]].
    etransitivity; [exact F1|].
    eexists _, [], _. split; [done|]. intros c Hc. by apply elem_of_nil in Hc.
  - eexists _, _. split.
    { unfold mbind, IO_bind. by rewrite E. }
    split; [done|]. split; [by right|].
    intros Hr. specialize (Hrep Hr). congruence.
Qed.

(** The invariant of the menu loop over a cleaned frame. *)
Lemma menu_loop_safe df D (n : nat) :
  Forall all_present D →
  ∀ stdin t,
    (length stdin ≤ n)%nat →
    objects t !! df = Some D →
    ∃ o t',
      menu_loop df stdin t = (o, t') ∧
      follows t t' ∧
      ends_well o ∧
      ((∀ r, r ∈ D → reportable r = true) → o ≠ Failed (Py OverflowError)) ∧
      (o = Done tt → last (screen t') = Some goodbye ∧ "3" ∈ stdin).
Proof.
  intros HD. unfold ends_well.
  assert (∀ t ls, (∀ c, Stat (NoData c) ∉ ls) → follows t (typed t ls)) as Ft
    by (intros; by apply follows_typed).
  assert (∀ c, Stat (NoData c) ∉ menu_lines ++ [country_prompt]) as Q1.
  { intros c Hc. apply elem_of_app in Hc as [Hc|Hc];
      [by apply (menu_lines_quiet c)|].
    apply list_elem_of_singleton in Hc. done. }
  induction n as [|n IH]; intros stdin t Hlen H; rewrite menu_loop_turn.
  - destruct stdin as [|? ?]; [|simpl in Hlen; lia].
    eexists _, _. split; [done|]. split; [apply Ft, menu_lines_quiet|].
    split; [tauto|]. split; done.
  - destruct stdin as [|choice stdin].
    { eexists _, _. split; [done|]. split; [apply Ft, menu_lines_quiet|].
      split; [tauto|]. split; done. }
    simpl in Hlen.
    destruct (String.eqb_spec choice "1") as [->|N1].
    + destruct stdin as [|country stdin].
      { eexists _, _. split; [done|]. split; [by apply Ft|].
        split; [tauto|]. split; done. }
      simpl in Hlen.
      set (t1 := typed t (menu_lines ++ [country_prompt])).
      assert (follows t t1) as F1 by (by apply Ft).
      assert (objects t1 !! df = Some D) as H1 by done.
      assert (frames (World (objects t1) []) !! df = Some D) as Hw by done.
      rewrite (io_bind_done _ _ _ _ _
                 (liftM_pure _ _ _ (location_contains_run _ _ _ country Hw))).
      case_bool_decide as Hk.
      * apply country_rows_nonempty in Hk.
        destruct (view_known_step t1 df D country H1 HD Hk)
          as (o1 & t2 & E & F2 & Ho1 & Hrep).
        destruct Ho1 as [-> | ->].
        -- rewrite (io_bind_done _ _ _ _ _ E).
           destruct (IH stdin t2 ltac:(lia) (follows_live _ _ _ _ F2 H1))
             as (o & t' & -> & F3 & Ho & Hov & Hdone).
           exists o, t'. split; [done|].
           split; [by do 2 (etransitivity; [eassumption|])|].
           split; [done|]. split; [done|].
           intros Hd. destruct (Hdone Hd) as [? ?].
           split; [done|]. by do 2 right.
        -- rewrite (io_bind_failed _ _ _ _ _ E).
           eexists _, _. split; [done|].
           split; [by etransitivity|]. split; [tauto|].
           split; [|done]. intros Hr. specialize (Hrep Hr). done.
      * assert ((λ t0 : terminal, (Done (), typed t0 [not_found country])) t1
                = (Done tt, typed t1 [not_found country])) as E by done.
        rewrite (io_bind_done _ _ _ _ _ E).
        assert (follows t1 (typed t1 [not_found country])) as F2.
        { apply Ft. intros c Hc. apply list_elem_of_singleton in Hc. done. }
        destruct (IH stdin (typed t1 [not_found country]) ltac:(lia) H1)
          as (o & t' & -> & F3 & Ho & Hov & Hdone).
        exists o, t'. split; [done|].
        split; [by do 2 (etransitivity; [eassumption|])|].
        split; [done|]. split; [done|].
        intros Hd. destruct (Hdone Hd) as [? ?].
        split; [done|]. by do 2 right.
    + destruct (String.eqb_spec choice "2") as [->|N2].
      * set (t1 := typed t menu_lines).
        assert (follows t t1) as F1 by apply Ft, menu_lines_quiet.
        assert (objects t1 !! df = Some D) as H1 by done.
        assert (frames (World (objects t1) []) !! df = Some D) as Hw by done.
        rewrite (io_bind_done _ _ _ _ _
                   (liftM_pure _ _ _ (get_available_countries_run _ _ _ Hw))).
        set (ls := _ :: numbered 1 _).
        assert ((λ t0 : terminal, (Done (), typed t0 ls)) t1
                = (Done tt, typed t1 ls)) as E by done.
        rewrite (io_bind_done _ _ _ _ _ E).
        assert (follows t1 (typed t1 ls)) as F2.
        { apply Ft. intros c Hc. apply elem_of_cons in Hc as [Hc|Hc]; [done|].
          by apply numbered_quiet in Hc. }
        destruct (IH stdin (typed t1 ls) ltac:(lia) H1)
          as (o & t' & -> & F3 & Ho & Hov & Hdone).
        exists o, t'. split; [done|].
        split; [by do 2 (etransitivity; [eassumption|])|].
        split; [done|]. split; [done|].
        intros Hd. destruct (Hdone Hd) as [? ?].
        split; [done|]. by right.
      * destruct (String.eqb_spec choice "3") as [->|N3].
        -- eexists _, _. split; [done|]. split.
           { apply Ft. intros c Hc. apply elem_of_app in Hc as [Hc|Hc];
               [by apply (menu_lines_quiet c)|].
             apply list_elem_of_singleton in Hc. done. }
           split; [tauto|]. split; [done|]. intros _. split; [|by left].
           unfold typed. cbn [screen]. rewrite app_assoc. apply last_snoc.
        -- assert (follows t (typed t (menu_lines ++ [invalid_choice]))) as F1.
           { apply Ft. intros c Hc. apply elem_of_app in Hc as [Hc|Hc];
               [by apply (menu_lines_quiet c)|].
             apply list_elem_of_singleton in Hc. done. }
           destruct (IH stdin (typed t (menu_lines ++ [invalid_choice]))
                       ltac:(lia) H)
             as (o & t' & -> & F3 & Ho & Hov & Hdone).
           exists o, t'. split; [done|].
           split; [by etransitivity|].
           split; [done|]. split; [done|].
           intros Hd. destruct (Hdone Hd) as [? ?].
           split; [done|]. by right.
Qed.

End menu_invariant.

Section whole_session.

Implicit Types (t : terminal) (df : ref) (D : DataFrame) (stdin : list string).

Lemma main_run_failed (e : string) stdin t :
  main (inl e) stdin t = (Done tt, typed t [loading; load_error e]).
Proof.
  unfold main, load_covid_data.
  rewrite (io_bind_done _ _ _ (None : option ref) (typed t [loading; load_error e]));
    [reflexivity|].
  rewrite say_then. rewrite (io_bind_done _ _ _ _ _ (say_run _ _)).
  by rewrite typed_typed.
Qed.

Lemma main_run_loaded D stdin t :
  main (inr D) stdin t
  = menu_loop (length (objects t) + 2)%nat stdin
      (advanced t [D; kept D; cleaned D] [loading; loaded_ok] []).
Proof.
  unfold main, load_covid_data.
  set (t1 := advanced t [D] [loading; loaded_ok] []).
  rewrite (io_bind_done _ _ _ (Some (length (objects t))) t1).
  2: { rewrite say_then. unfold mbind, IO_bind, new, say, mret, IO_ret, t1, advanced, typed.
       simpl. by rewrite <- !app_assoc, app_nil_r. }
  assert (frames (World (objects t1) []) !! length (objects t) = Some D) as Hw.
  { unfold t1, advanced. simpl. by apply list_lookup_middle. }
  rewrite (io_bind_done _ _ _ _ _ (liftM_ret _ _ _ _ (clean_data_run _ _ _ Hw))).
  unfold t1, advanced. simpl. rewrite !length_app. simpl.
  rewrite <- !app_assoc, !app_nil_r. simpl.
  by replace (S (length (objects t) + 1)) with (length (objects t) + 2)%nat by lia.
Qed.

Lemma main_cleaned_live D t :
  objects (advanced t [D; kept D; cleaned D] [loading; loaded_ok] [])
    !! (length (objects t) + 2)%nat = Some (cleaned D).
Proof.
  unfold advanced. simpl.
  replace (objects t ++ [D; kept D; cleaned D])
    with ((objects t ++ [D; kept D]) ++ [cleaned D])
    by (by rewrite <- app_assoc).
  apply list_lookup_middle. rewrite length_app. simpl. lia.
Qed.

Lemma main_safe D stdin t :
  ∃ o t',
    main (inr D) stdin t = (o, t') ∧
    follows (advanced t [D; kept D; cleaned D] [loading; loaded_ok] []) t' ∧
    ends_well o ∧
    (no_infinities D = true → o ≠ Failed (Py OverflowError)) ∧
    (o = Done tt → last (screen t') = Some goodbye ∧ "3" ∈ stdin).
Proof.
  rewrite main_run_loaded.
  destruct (menu_loop_safe (length (objects t) + 2)%nat (cleaned D) (length stdin)
              (cleaned_all_present D) stdin _ (le_n _) (main_cleaned_live D t))
    as (o & t' & E & F & Ho & Hov & Hd).
  exists o, t'. split; [done|]. split; [done|]. split; [done|]. split; [|done].
  intros Hf. apply Hov. intros r Hr.
  apply (cleaned_reportable D); [|done]. by apply no_infinities_no_infinity.
Qed.

End whole_session.

(** X11. When loading fails, the program writes the loading line and the
    error with its message and ends normally: it creates no frame, shows no
    menu and draws nothing, whatever the input holds. *)
Theorem main_load_failure (e : string) (stdin : list string) (t : terminal) :
  main (inl e) stdin t
  = (Done tt,
     Terminal (objects t) (screen t ++ [loading; load_error e]) (canvas t)).
Proof. apply main_run_failed. Qed.

(** X12. No session writes a no-data line: whatever is loaded and whatever
    is typed, frames, text and plotting calls are only added, and the text
    added holds no no-data line (the membership test of the session keeps
    both empty-slice branches from running). *)
Theorem main_never_no_data
    (net : string + DataFrame) (stdin : list string) (t : terminal) :
  ∃ fs ls cs,
    (main net stdin t).2
      = Terminal (objects t ++ fs) (screen t ++ ls) (canvas t ++ cs) ∧
    ∀ c, Stat (NoData c) ∉ ls.
Proof.
  destruct net as [e|D].
  - rewrite main_run_failed. exists [], [loading; load_error e], [].
    split; [by rewrite !app_nil_r|].
    intros c Hc. apply elem_of_cons in Hc as [Hc|Hc]; [done|].
    by apply list_elem_of_singleton in Hc.
  - destruct (main_safe D stdin t) as (o & t' & -> & F & _).
    assert (follows t (advanced t [D; kept D; cleaned D] [loading; loaded_ok] []))
      as F0.
    { eexists _, _, _. split; [done|].
      intros c Hc. apply elem_of_cons in Hc as [Hc|Hc]; [done|].
      by apply list_elem_of_singleton in Hc. }
    destruct (transitivity F0 F) as (fs & ls & cs & -> & Hq).
    by exists fs, ls, cs.
Qed.


(** X14. The session never changes a frame: at its end the frames that
    existed before, the frame loaded, the frame without the dropped rows
    and the cleaned frame hold the rows they held when created; the frames
    created later follow them. *)
Theorem main_keeps_frames (D : DataFrame) (stdin : list string) (t : terminal) :
  ∃ fs,
    objects (main (inr D) stdin t).2
      = objects t ++ [D; kept D; cleaned D] ++ fs.
Proof.
  destruct (main_safe D stdin t) as (o & t' & -> & (fs & ls & cs & -> & _) & _).
  exists fs. unfold advanced. simpl. by rewrite <- app_assoc.
Qed.

(** X15. A session that ends normally after a successful load has read
    the choice 3: the last thing on the screen is the farewell, and the
    input holds a line 3. *)
Theorem main_normal_end (D : DataFrame) (stdin : list string) (t : terminal) :
  (main (inr D) stdin t).1 = Done tt →
  last (screen (main (inr D) stdin t).2) = Some goodbye ∧ "3" ∈ stdin.
Proof.
  destruct (main_safe D stdin t) as (o & t' & -> & _ & _ & _ & Hd).
  exact Hd.
Qed.

Lemma main_normal_end_witness :
  (main (inr scenario) ["2"; "1"; "Testland"; "3"] blank).1 = Done tt ∧
  last (screen (main (inr scenario) ["2"; "1"; "Testland"; "3"] blank).2)
    = Some goodbye ∧
  "3" ∈ ["2"; "1"; "Testland"; "3"].
Proof.
  split; [vm_compute; reflexivity|].
  apply (main_normal_end scenario ["2"; "1"; "Testland"; "3"] blank).
  vm_compute. reflexivity.
Defined.

(** X16. Choice 2 writes the heading and then one line for each distinct
    location of the frame, in ascending order and numbered from 1; it
    creates no frame, draws nothing, and the menu comes back. *)
Theorem menu_loop_lists_countries
    (df : ref) (D : DataFrame) (rest : list string) (t : terminal) :
  objects t !! df = Some D →
  ∃ L,
    get_available_countries df (World (objects t) [])
      = (Ret L, World (objects t) []) ∧
    menu_loop df ("2" :: rest) t
      = menu_loop df rest (typed t (menu_lines ++ available :: numbered 1 L)) ∧
    length (numbered 1 L) = length L ∧
    ∀ i c, L !! i = Some c →
           numbered 1 L !! i = Some (Text (pretty (S i) +:+ ". " +:+ c)).
Proof.
  intros H.
  assert (frames (World (objects t) []) !! df = Some D) as Hw by done.
  eexists. split; [by apply get_available_countries_run|].
  split; [|split].
  - rewrite menu_loop_turn. cbn [String.eqb Ascii.eqb Bool.eqb].
    assert (frames (World (objects (typed t menu_lines)) []) !! df = Some D)
      as Hw' by done.
    rewrite (io_bind_done _ _ _ _ _
               (liftM_pure _ _ _ (get_available_countries_run _ _ _ Hw'))).
    unfold mbind, IO_bind. by rewrite typed_typed.
  - unfold numbered. apply length_imap.
  - intros i c Hc. unfold numbered. by rewrite list_lookup_imap, Hc.
Qed.

Lemma menu_loop_lists_countries_witness :
  objects (Terminal [scenario; cleaned scenario] [] []) !! 1%nat
    = Some (cleaned scenario) ∧
  ∃ L,
    get_available_countries 1%nat (World [scenario; cleaned scenario] [])
      = (Ret L, World [scenario; cleaned scenario] []) ∧
    menu_loop 1%nat ["2"; "3"] (Terminal [scenario; cleaned scenario] [] [])
      = menu_loop 1%nat ["3"]
          (typed (Terminal [scenario; cleaned scenario] [] [])
                 (menu_lines ++ available :: numbered 1 L)) ∧
    length (numbered 1 L) = length L ∧
    ∀ i c, L !! i = Some c →
           numbered 1 L !! i = Some (Text (pretty (S i) +:+ ". " +:+ c)).
Proof.
  split; [reflexivity|].
  apply (menu_loop_lists_countries 1%nat (cleaned scenario) ["3"]
           (Terminal [scenario; cleaned scenario] [] [])).
  reflexivity.
Defined.

(** X17. Asking for a country that no row of the frame has as its location
    (the match is on the exact string) writes the not-found line, creates no
    frame, draws nothing, and the menu comes back. *)
Theorem menu_loop_unknown_country
    (df : ref) (D : DataFrame) (country : string) (rest : list string)
    (t : terminal) :
  objects t !! df = Some D →
  bool_decide (country ∈ map location D) = false →
  menu_loop df ("1" :: country :: rest) t
  = menu_loop df rest (typed t (menu_lines ++ [country_prompt; not_found country])).
Proof.
  intros H Hk. rewrite menu_loop_turn. cbn [String.eqb Ascii.eqb Bool.eqb].
  assert (frames (World (objects (typed t (menu_lines ++ [country_prompt]))) [])
            !! df = Some D) as Hw by done.
  rewrite (io_bind_done _ _ _ _ _
             (liftM_pure _ _ _ (location_contains_run _ _ _ country Hw))).
  rewrite Hk. unfold mbind, IO_bind. rewrite typed_typed.
  by rewrite <- app_assoc.
Qed.

Lemma menu_loop_unknown_country_witness :
  objects (Terminal [scenario; cleaned scenario] [] []) !! 1%nat
    = Some (cleaned scenario) ∧
  bool_decide ("testland" ∈ map location (cleaned scenario)) = false ∧
  menu_loop 1%nat ["1"; "testland"; "3"] (Terminal [scenario; cleaned scenario] [] [])
  = menu_loop 1%nat ["3"]
      (typed (Terminal [scenario; cleaned scenario] [] [])
             (menu_lines ++ [country_prompt; not_found "testland"])).
Proof.
  split; [reflexivity|]. split; [reflexivity|].
  apply (menu_loop_unknown_country 1%nat (cleaned scenario) "testland" ["3"]
           (Terminal [scenario; cleaned scenario] [] [])); reflexivity.
Defined.

(** X18. Viewing a country whose last row can be reported writes the
    prompt and the report of that row, then draws the chart of the
    country's rows, and the menu comes back; the view creates four frames,
    the slice and its copy for the report and again for the chart. *)
Theorem menu_loop_views_country
    (df : ref) (D : DataFrame) (country : string) (r : Row)
    (rest : list string) (t : terminal) :
  objects t !! df = Some D →
  last (country_rows D country) = Some r →
  reportable r = true →
  ∃ a b,
    py_int (total_cases r) = inl a ∧ py_int (total_deaths r) = inl b ∧
    menu_loop df ("1" :: country :: rest) t
    = menu_loop df rest
        (advanced t
           [country_rows D country; country_rows D country;
            country_rows D country; country_rows D country]
           (menu_lines ++ country_prompt
              :: map Stat (report_lines country r a b))
           (chart country (country_rows D country))).
Proof.
  intros H Hl Hr.
  set (t1 := typed t (menu_lines ++ [country_prompt])).
  assert (frames (World (objects t1) []) !! df = Some D) as Hw by done.
  destruct (display_country_stats_reportable _ _ _ country r Hw Hl Hr)
    as (a & b & Ha & Hb & Hd).
  exists a, b. split; [done|]. split; [done|].
  assert (country_rows D country ≠ []) as Hne
    by (intros E; by rewrite E in Hl).
  rewrite menu_loop_turn. cbn [String.eqb Ascii.eqb Bool.eqb]. fold t1.
  rewrite (io_bind_done _ _ _ _ _
             (liftM_pure _ _ _ (location_contains_run _ _ _ country Hw))).
  rewrite bool_decide_true by by apply country_rows_nonempty.
  set (S0 := country_rows D country) in *.
  set (t2 := advanced t1 [S0; S0] (map Stat (report_lines country r a b)) []).
  assert (liftM (display_country_stats df country) t1 = (Done tt, t2)) as E1.
  { rewrite (liftM_ret _ _ _ _ Hd). unfold t2, advanced, queried, printed, allocated.
    simpl. by rewrite app_nil_r. }
  assert (objects t2 !! df = Some D) as H2.
  { unfold t2, advanced. simpl. by apply lookup_app_l_Some. }
  pose proof (plot_covid_trends_run t2 df D country H2) as E2.
  fold S0 in E2. destruct S0 as [|x S1] eqn:ES; [done|].
  rewrite (io_bind_done _ _ _ tt
             (advanced t2 [x :: S1; x :: S1] [] (chart country (x :: S1)))).
  2: { by rewrite (io_bind_done _ _ _ _ _ E1). }
  f_equal. unfold t2, t1, typed, advanced. simpl.
  by rewrite !app_nil_r, <- !app_assoc.
Qed.

Lemma menu_loop_views_country_witness :
  objects (Terminal [scenario; cleaned scenario] [] []) !! 1%nat
    = Some (cleaned scenario) ∧
  last (country_rows (cleaned scenario) "Testland")
    = Some (pd.fill_row 0%float testland_2) ∧
  reportable (pd.fill_row 0%float testland_2) = true ∧
  ∃ a b,
    py_int (total_cases (pd.fill_row 0%float testland_2)) = inl a ∧
    py_int (total_deaths (pd.fill_row 0%float testland_2)) = inl b ∧
    menu_loop 1%nat ["1"; "Testland"; "3"] (Terminal [scenario; cleaned scenario] [] [])
    = menu_loop 1%nat ["3"]
        (advanced (Terminal [scenario; cleaned scenario] [] [])
           [country_rows (cleaned scenario) "Testland";
            country_rows (cleaned scenario) "Testland";
            country_rows (cleaned scenario) "Testland";
            country_rows (cleaned scenario) "Testland"]
           (menu_lines ++ country_prompt
              :: map Stat (report_lines "Testland"
                             (pd.fill_row 0%float testland_2) a b))
           (chart "Testland" (country_rows (cleaned scenario) "Testland"))).
Proof.
  split; [reflexivity|]. split; [reflexivity|]. split; [reflexivity|].
  apply (menu_loop_views_country 1%nat (cleaned scenario) "Testland"
           (pd.fill_row 0%float testland_2) ["3"]
           (Terminal [scenario; cleaned scenario] [] [])); reflexivity.
Defined.

(** X19. The chart of a country: when the country has no row, the no-data
    line is written and nothing is drawn; otherwise nothing is written and
    the calls end with [show], every line series and every bar series has
    the dates of the country's rows, in their order, as its x values and as
    many y values as x values.  In both cases the call ends normally and
    every frame that existed keeps its rows. *)
Theorem plot_covid_trends_chart
    (df : ref) (D : DataFrame) (country : string) (t : terminal) :
  objects t !! df = Some D →
  ∃ t',
    plot_covid_trends df country t = (Done tt, t') ∧
    (∀ k d, objects t !! k = Some d → objects t' !! k = Some d) ∧
    (country_rows D country = [] →
     screen t' = screen t ++ [Stat (NoData country)] ∧ canvas t' = canvas t) ∧
    (country_rows D country ≠ [] →
     screen t' = screen t ∧
     ∃ calls,
       canvas t' = canvas t ++ calls ∧
       last calls = Some Show ∧
       (∀ ax xs ys label color,
          Plot ax xs ys label color ∈ calls →
          xs = map date (country_rows D country) ∧ length ys = length xs) ∧
       (∀ ax xs ys label alpha color,
          Bar ax xs ys label alpha color ∈ calls →
          xs = map date (country_rows D country) ∧ length ys = length xs)).
Proof.
  intros H. eexists. split; [by apply plot_covid_trends_run|].
  destruct (country_rows D country) as [|x S0] eqn:E.
  - split; [|split; [|done]].
    + intros k d Hk. simpl. by apply lookup_app_l_Some.
    + intros _. simpl. by rewrite app_nil_r.
  - split; [|split; [done|]].
    + intros k d Hk. simpl. by apply lookup_app_l_Some.
    + intros _. split; [simpl; by rewrite app_nil_r|].
      eexists. split; [done|]. split; [done|]. split.
      * intros ax xs ys label color Hin. unfold chart in Hin.
        repeat (apply elem_of_cons in Hin as [Hin|Hin];
                [first [discriminate Hin
                       | injection Hin as _ Hxs Hys _ _; subst xs ys;
                         split; [done|simpl; by rewrite !length_map]]|]).
        by apply elem_of_nil in Hin.
      * intros ax xs ys label alpha color Hin. unfold chart in Hin.
        repeat (apply elem_of_cons in Hin as [Hin|Hin];
                [first [discriminate Hin
                       | injection Hin as _ Hxs Hys _ _ _; subst xs ys;
                         split; [done|simpl; by rewrite !length_map]]|]).
        by apply elem_of_nil in Hin.
Qed.

Lemma plot_covid_trends_chart_witness :
  objects (Terminal [scenario] [] []) !! 0%nat = Some scenario ∧
  ∃ t',
    plot_covid_trends 0%nat "Testland" (Terminal [scenario] [] []) = (Done tt, t') ∧
    (∀ k d, objects (Terminal [scenario] [] []) !! k = Some d →
            objects t' !! k = Some d) ∧
    (country_rows scenario "Testland" = [] →
     screen t' = screen (Terminal [scenario] [] []) ++ [Stat (NoData "Testland")] ∧
     canvas t' = canvas (Terminal [scenario] [] [])) ∧
    (country_rows scenario "Testland" ≠ [] →
     screen t' = screen (Terminal [scenario] [] []) ∧
     ∃ calls,
       canvas t' = canvas (Terminal [scenario] [] []) ++ calls ∧
       last calls = Some Show ∧
       (∀ ax xs ys label color,
          Plot ax xs ys label color ∈ calls →
          xs = map date (country_rows scenario "Testland") ∧
          length ys = length xs) ∧
       (∀ ax xs ys label alpha color,
          Bar ax xs ys label alpha color ∈ calls →
          xs = map date (country_rows scenario "Testland") ∧
          length ys = length xs)).
Proof.
  split; [reflexivity|].
  apply (plot_covid_trends_chart 0%nat scenario "Testland"
           (Terminal [scenario] [] [])).
  reflexivity.
Defined.
